(** * MT3620Ultrasonic: the parking-bay occupancy monitor of [main.c]

    A shallow embedding of [main.c]: the timespec arithmetic, the
    ultrasonic measurement [GetUltrasonicReading], the debounced twin
    report [ReportStatusToIotHub], the timer handler
    [UltrasonicTimerEventHandler], start-up, shut-down and the main loop.

    Conventions.
    - C integers ([int], [long], [time_t]) are [Z].  Signed overflow is
      undefined in C, so nothing wraps, and the embedding agrees with the
      C code only where no step leaves the range of the C type:
      [sub_in_range] and [subtract_add_steps_in_range] give the operands
      on which [TimerSubtract] does (normalized clock readings are among
      them), and the theorems about its seconds carry these ranges as
      hypotheses.
    - The [float] returned by [GetUltrasonicReading] is a rational [Q]:
      the exact quotient, where the C code returns the quotient rounded
      to [float].  The numbered theorems do not depend on the digits of
      the quotient: the value is only compared with [-1], [2], [8] and
      [400], with bounds far from it, or with the value of another
      measurement.
      The only values the function produces are [-1], [400] and
      [tv_nsec / 58000.0] for an integer [tv_nsec] in [0, 1e9); the
      handler only compares the value with [8] and [2].  Neighbouring
      quotients are [1/58000] apart, more than half a binary32 unit in
      the last place at [2], [8] and [400] (2^-23, 2^-21 and 2^-16), so
      rounding to [float] is monotone and moves no other quotient onto
      [2], [8] or [400]: the comparisons come out as on the rationals.
    - Calls to the collaborating libraries (GPIO, log, LEDs, Azure IoT,
      epoll) are recorded, in program order, as a list of [event]s; what
      they return is an input of the model. *)

From Stdlib Require Import ZArith QArith Bool List String Lia.
Import ListNotations.

Local Open Scope Z_scope.

(** ** Time intervals: [struct timespec] *)

Module TimerUtility.

Record timespec : Set := mk_timespec { tv_sec : Z; tv_nsec : Z }.

Definition NSEC_PER_SEC : Z := 1000000000.

(** The invariant of the spec's data model: the sub-second component is
    in [0, 1e9). *)
Definition normalized (a : timespec) : Prop :=
  0 <= tv_nsec a < NSEC_PER_SEC.

(** [TimerUtility_TimerSubtract(s, t, a)], main.c lines 61-70: the value
    stored through [a].  The C text adds the [double] constant [1e9]; the
    sum is an integer below 2^53, so the conversion back to [long] is
    exact. *)
Definition TimerSubtract (s t : timespec) : timespec :=
  let a := {| tv_sec := tv_sec s - tv_sec t;
              tv_nsec := tv_nsec s - tv_nsec t |} in
  if tv_nsec a <? 0
  then {| tv_sec := tv_sec a - 1; tv_nsec := tv_nsec a + NSEC_PER_SEC |}
  else a.

(** Modelled from the spec: [TimerUtility_TimerAdd] is declared in
    timer_utility.h and defined outside main.c.  Spec 4.1: [add(a, b)]
    re-normalizes the sub-second component into [0, 1e9) by carrying a
    whole second. *)
Definition TimerAdd (a b : timespec) : timespec :=
  let r := {| tv_sec := tv_sec a + tv_sec b;
              tv_nsec := tv_nsec a + tv_nsec b |} in
  if NSEC_PER_SEC <=? tv_nsec r
  then {| tv_sec := tv_sec r + 1; tv_nsec := tv_nsec r - NSEC_PER_SEC |}
  else r.

(** Modelled from the spec: [TimerUtility_TimerCompareGreater] is declared
    in timer_utility.h and defined outside main.c.  Spec 4.1:
    [compareGreater(a, b) -> bool] over (seconds, sub-second) pairs, that
    is the lexicographic strict order. *)
Definition TimerCompareGreater (a b : timespec) : bool :=
  (tv_sec b <? tv_sec a) ||
  ((tv_sec a =? tv_sec b) && (tv_nsec b <? tv_nsec a)).

(** The length of an interval in nanoseconds; two normalized intervals
    are equal exactly when their lengths are. *)
Definition to_ns (a : timespec) : Z := tv_sec a * NSEC_PER_SEC + tv_nsec a.

End TimerUtility.

Import TimerUtility.

(** ** Calls into the collaborating libraries

    One constructor per library function main.c calls, carrying the
    arguments that matter and, where the program looks at it, the value
    the call returned. *)

Inductive GPIO_Value_Type : Set := GPIO_Value_Low | GPIO_Value_High.

Definition is_high (v : GPIO_Value_Type) : bool :=
  match v with GPIO_Value_High => true | GPIO_Value_Low => false end.

(** The lights of [rgbLeds] and the colours main.c uses
    (led_blink_utility.h declares the enumeration). *)
Inductive RgbLed : Set :=
  ledTraffic | ledMessageEventSentReceived | ledNetworkStatus.

Inductive LedBlinkUtility_Colors : Set :=
| LedBlinkUtility_Colors_Off
| LedBlinkUtility_Colors_Red
| LedBlinkUtility_Colors_Green
| LedBlinkUtility_Colors_Yellow.

Inductive event : Type :=
| Log_Debug (fmt : string)
| GPIO_OpenAsOutput (fd : Z)
| GPIO_OpenAsInput (fd : Z)
| GPIO_SetValue (fd : Z) (v : GPIO_Value_Type)
| GPIO_GetValue (fd : Z) (v : GPIO_Value_Type)
| close (fd : Z)
| nanosleep (ns : Z)
| clock_gettime (t : timespec)
| ConsumeTimerFdEvent (rc : Z)
| AzureIoT_TwinReportState (name : string) (value : Z)
| LedBlinkUtility_SetLed (led : RgbLed) (color : LedBlinkUtility_Colors) (rc : Z)
| LedBlinkUtility_OpenLeds
| LedBlinkUtility_CloseLeds
| sigaction_SIGTERM
| CreateEpollFd (fd : Z)
| AzureIoT_Initialize (ok : bool)
| AzureIoT_SetConnectionStatusCallback
| CreateTimerFdAndAddToEpoll (fd : Z)
| CloseFdAndPrintError (fd : Z) (name : string)
| epoll_wait (rc : Z)
| AzureIoT_SetupClient (ok : bool)
| AzureIoT_DoPeriodicTasks.

Definition is_GPIO_GetValue (e : event) : bool :=
  match e with GPIO_GetValue _ _ => true | _ => false end.

Definition is_DoPeriodicTasks (e : event) : bool :=
  match e with AzureIoT_DoPeriodicTasks => true | _ => false end.

Definition is_SetupClient (e : event) : bool :=
  match e with AzureIoT_SetupClient _ => true | _ => false end.

(** The two calls that drive the telemetry client from the main loop. *)
Definition client_call (e : event) : bool := is_SetupClient e || is_DoPeriodicTasks e.

(** A trace without such calls. *)
Definition no_client_calls (tr : list event) : Prop :=
  Forall (fun e => client_call e = false) tr.

(** The twin reports of a trace, oldest first. *)
Fixpoint twin_reports (tr : list event) : list (string * Z) :=
  match tr with
  | [] => []
  | AzureIoT_TwinReportState name value :: tr' => (name, value) :: twin_reports tr'
  | _ :: tr' => twin_reports tr'
  end.

(** The colours a trace sets on one light, oldest first. *)
Fixpoint colors_set (led : RgbLed) (tr : list event) : list LedBlinkUtility_Colors :=
  match tr with
  | [] => []
  | LedBlinkUtility_SetLed l c _ :: tr' =>
      match led, l with
      | ledTraffic, ledTraffic
      | ledMessageEventSentReceived, ledMessageEventSentReceived
      | ledNetworkStatus, ledNetworkStatus => c :: colors_set led tr'
      | _, _ => colors_set led tr'
      end
  | _ :: tr' => colors_set led tr'
  end.

(** ** The file-scope variables of main.c *)

Record Globals : Set := mk_Globals {
  epollFd : Z;
  usTimerFd : Z;
  connectedToIoTHub : bool;
  occupiedState : bool;
  terminationRequired : bool
}.

(** Their initializers (lines 31, 32, 36, 49 and 134). *)
Definition process_start : Globals :=
  {| epollFd := -1; usTimerFd := -1; connectedToIoTHub := false;
     occupiedState := false; terminationRequired := false |}.

Definition set_epollFd (fd : Z) (g : Globals) : Globals :=
  {| epollFd := fd; usTimerFd := usTimerFd g;
     connectedToIoTHub := connectedToIoTHub g;
     occupiedState := occupiedState g;
     terminationRequired := terminationRequired g |}.

Definition set_usTimerFd (fd : Z) (g : Globals) : Globals :=
  {| epollFd := epollFd g; usTimerFd := fd;
     connectedToIoTHub := connectedToIoTHub g;
     occupiedState := occupiedState g;
     terminationRequired := terminationRequired g |}.

Definition set_connectedToIoTHub (b : bool) (g : Globals) : Globals :=
  {| epollFd := epollFd g; usTimerFd := usTimerFd g;
     connectedToIoTHub := b;
     occupiedState := occupiedState g;
     terminationRequired := terminationRequired g |}.

Definition set_occupiedState (b : bool) (g : Globals) : Globals :=
  {| epollFd := epollFd g; usTimerFd := usTimerFd g;
     connectedToIoTHub := connectedToIoTHub g;
     occupiedState := b;
     terminationRequired := terminationRequired g |}.

Definition set_terminationRequired (b : bool) (g : Globals) : Globals :=
  {| epollFd := epollFd g; usTimerFd := usTimerFd g;
     connectedToIoTHub := connectedToIoTHub g;
     occupiedState := occupiedState g;
     terminationRequired := b |}.

(** [TerminationHandler], lines 54-58. *)
Definition TerminationHandler (g : Globals) : Globals :=
  set_terminationRequired true g.

(** [IoTHubConnectionStatusChanged], lines 184-187. *)
Definition IoTHubConnectionStatusChanged (connected : bool) (g : Globals) : Globals :=
  set_connectedToIoTHub connected g.

(** ** The distance sensor: [GetUltrasonicReading], lines 72-132 *)

(** What the hardware answers during one measurement: the descriptors the
    two GPIO open calls return, the level the [i]-th [GPIO_GetValue] of
    the polling loop stores, and the time [CLOCK_MONOTONIC] shows during
    the [i]-th pass of the loop.  [GPIO_GetValue] is taken to succeed:
    main.c does not look at its result. *)
Record SensorEnv : Type := mk_SensorEnv {
  open_output : Z;
  open_input : Z;
  pin_level : nat -> GPIO_Value_Type;
  monotonic_clock : nat -> timespec
}.

(** The locals the polling loop changes. *)
Record PollState : Set := mk_PollState {
  tsStart : timespec;
  tsEnd : timespec;
  triggered : bool
}.

Definition zero_timespec : timespec := {| tv_sec := 0; tv_nsec := 0 |}.

Definition poll_start : PollState :=
  {| tsStart := zero_timespec; tsEnd := zero_timespec; triggered := false |}.

Definition POLL_CEILING : nat := Z.to_nat 10000.

(** The [for] loop of lines 98-118, with [n] passes left and loop counter
    [i]: the locals when the loop is left and the calls it made. *)
Fixpoint poll (w : SensorEnv) (fd : Z) (n i : nat) (st : PollState)
  : PollState * list event :=
  match n with
  | O => (st, [])
  | S n' =>
      let outVal := pin_level w i in
      match outVal with
      | GPIO_Value_High =>
          if triggered st
          then let '(st', tr) := poll w fd n' (S i) st in
               (st', GPIO_GetValue fd outVal :: tr)
          else let now := monotonic_clock w i in
               let st1 := {| tsStart := now; tsEnd := tsEnd st; triggered := true |} in
               let '(st', tr) := poll w fd n' (S i) st1 in
               (st', GPIO_GetValue fd outVal :: clock_gettime now :: tr)
      | GPIO_Value_Low =>
          if triggered st
          then let now := monotonic_clock w i in
               ({| tsStart := tsStart st; tsEnd := now; triggered := triggered st |},
                [GPIO_GetValue fd outVal; clock_gettime now;
                 Log_Debug "looped %d times\n"])
          else let '(st', tr) := poll w fd n' (S i) st in
               (st', GPIO_GetValue fd outVal :: tr)
      end
  end.

Definition TIMEOUT_SENTINEL : Q := 400.
Definition UNAVAILABLE_SENTINEL : Q := -1.

Definition GetUltrasonicReading (w : SensorEnv) : Q * list event :=
  let fd := open_output w in
  if fd <? 0 then
    (UNAVAILABLE_SENTINEL,
     [GPIO_OpenAsOutput fd;
      Log_Debug "ERROR: Could not open Ultrasonic Output GPIO: %s (%d).\n"])
  else
    let trigger := [GPIO_OpenAsOutput fd; nanosleep 10000;
                    GPIO_SetValue fd GPIO_Value_Low; close fd] in
    let fd' := open_input w in
    if fd' <? 0 then
      (UNAVAILABLE_SENTINEL,
       trigger ++
       [GPIO_OpenAsInput fd';
        Log_Debug "ERROR: Could not open Ultrasonic Input GPIO: %s (%d).\n"])
    else
      let '(st, polled) := poll w fd' POLL_CEILING 0 poll_start in
      let tr := trigger ++ GPIO_OpenAsInput fd' :: polled ++ [close fd'] in
      if (tv_sec (tsEnd st) =? 0) && (tv_nsec (tsEnd st) =? 0) then
        (TIMEOUT_SENTINEL, tr)
      else
        let elapsed := TimerSubtract (tsEnd st) (tsStart st) in
        (tv_nsec elapsed # 58000, tr).

(** *** Sample hardware behaviours *)

(** The pin reads high on the passes [first .. last - 1] and low on all
    others; the clock shows [t_rise] before pass [last] and [t_fall] from
    then on. *)
Definition pulse (first last : nat) (t_rise t_fall : timespec) : SensorEnv :=
  {| open_output := 3;
     open_input := 4;
     pin_level := fun k => if (first <=? k)%nat && (k <? last)%nat
                           then GPIO_Value_High else GPIO_Value_Low;
     monotonic_clock := fun k => if (k <? last)%nat then t_rise else t_fall |}.

(** An echo of 23.2 ms. *)
Definition echo_23ms : SensorEnv :=
  pulse 1 3 {| tv_sec := 7; tv_nsec := 100 |} {| tv_sec := 7; tv_nsec := 23200100 |}.

(** An echo of 290 us, across a second boundary of the clock. *)
Definition echo_290us : SensorEnv :=
  pulse 2 9 {| tv_sec := 7; tv_nsec := 999900000 |} {| tv_sec := 8; tv_nsec := 190000 |}.

(** No echo: the pin stays low. *)
Definition no_echo : SensorEnv :=
  pulse 0 0 {| tv_sec := 7; tv_nsec := 100 |} {| tv_sec := 7; tv_nsec := 200 |}.

(** The pin cannot be opened as an output, or as an input. *)
Definition output_busy : SensorEnv :=
  {| open_output := -1; open_input := 4;
     pin_level := pin_level echo_290us;
     monotonic_clock := monotonic_clock echo_290us |}.

Definition input_busy : SensorEnv :=
  {| open_output := 3; open_input := -1;
     pin_level := pin_level echo_290us;
     monotonic_clock := monotonic_clock echo_290us |}.

(** ** The occupancy reporter *)

(** [ReportStatusToIotHub], lines 136-150. *)
Definition ReportStatusToIotHub (occupied : bool) (g : Globals)
  : Globals * list event :=
  if negb (Bool.eqb (occupiedState g) occupied) then
    let g' := set_occupiedState occupied g in
    if connectedToIoTHub g' then
      (g', [AzureIoT_TwinReportState "ParkingBayOccupied"
              (if occupied then 1 else 0)])
    else
      (g', [Log_Debug "WARNING: Cannot send message: not connected to the IoT Hub\n"])
  else (g, []).

(** The C comparison [x > y] on the sample. *)
Definition Qgt_bool (x y : Q) : bool := negb (Qle_bool x y).

(** Lines 161-177 of [UltrasonicTimerEventHandler]: what the handler does
    with the sample [cms].  [led_rc] is what [LedBlinkUtility_SetLed]
    returns; the handler drops it. *)
Definition classify_and_report (cms : Q) (led_rc : Z) (g : Globals)
  : Globals * list event :=
  if Qgt_bool cms 8 then
    let '(g', tr) := ReportStatusToIotHub false g in
    (g', tr ++ [LedBlinkUtility_SetLed ledTraffic LedBlinkUtility_Colors_Green led_rc;
                Log_Debug "Appox %.1f cm\n"])
  else if Qgt_bool cms 2 then
    let '(g', tr) := ReportStatusToIotHub true g in
    (g', tr ++ [LedBlinkUtility_SetLed ledTraffic LedBlinkUtility_Colors_Yellow led_rc;
                Log_Debug "Appox %.1f cm\n"])
  else
    let '(g', tr) := ReportStatusToIotHub true g in
    (g', tr ++ [LedBlinkUtility_SetLed ledTraffic LedBlinkUtility_Colors_Red led_rc;
                Log_Debug "Appox %.1f cm\n"]).

(** What one firing of the timer meets: the result of draining the timer,
    the hardware during the measurement, the result of the LED call. *)
Record TimerTick : Type := mk_TimerTick {
  consume_rc : Z;
  sensor : SensorEnv;
  traffic_led_rc : Z
}.

(** [UltrasonicTimerEventHandler], lines 152-178. *)
Definition UltrasonicTimerEventHandler (t : TimerTick) (g : Globals)
  : Globals * list event :=
  if negb (consume_rc t =? 0) then
    (set_terminationRequired true g, [ConsumeTimerFdEvent (consume_rc t)])
  else
    let '(cms, measured) := GetUltrasonicReading (sensor t) in
    let '(g', tr) := classify_and_report cms (traffic_led_rc t) g in
    (g', ConsumeTimerFdEvent (consume_rc t) :: measured ++ tr).

(** The globals at process start once the client has notified that it is
    connected. *)
Definition connected_start : Globals :=
  IoTHubConnectionStatusChanged true process_start.

(** The script of the end-to-end property of the spec (section 8). *)
Definition scripted_samples : list Q := [10; 10; 5; 5; 1; 10]%Q.

(** A scripted run of the classify-and-report path, one sample per timer
    tick; every LED call succeeds. *)
Fixpoint feed_samples (samples : list Q) (g : Globals) : Globals * list event :=
  match samples with
  | [] => (g, [])
  | cms :: rest =>
      let '(g1, tr1) := classify_and_report cms 0 g in
      let '(g2, tr2) := feed_samples rest g1 in
      (g2, tr1 ++ tr2)
  end.

(** The same, with the connection status the telemetry client has last
    notified before each tick. *)
Fixpoint feed_ticks (ticks : list (bool * Q)) (g : Globals) : Globals * list event :=
  match ticks with
  | [] => (g, [])
  | (connected, cms) :: rest =>
      let '(g1, tr1) :=
        classify_and_report cms 0 (IoTHubConnectionStatusChanged connected g) in
      let '(g2, tr2) := feed_ticks rest g1 in
      (g2, tr1 ++ tr2)
  end.

(** *** The reporter as the spec words it (4.4), to compare with the code *)

Inductive Tier : Set := clear | near | occupied.

(** [distance <= 2] is occupied, [2 < distance <= 8] is near,
    [distance > 8] is clear. *)
Definition spec_tier (distance : Q) : Tier :=
  if Qle_bool distance 2 then occupied
  else if Qle_bool distance 8 then near
  else clear.

Definition spec_occupancy (t : Tier) : bool :=
  match t with clear => false | near => true | occupied => true end.

Definition spec_color (t : Tier) : LedBlinkUtility_Colors :=
  match t with
  | clear => LedBlinkUtility_Colors_Green
  | near => LedBlinkUtility_Colors_Yellow
  | occupied => LedBlinkUtility_Colors_Red
  end.

Definition occupancy_of (distance : Q) : bool := spec_occupancy (spec_tier distance).

Definition NOT_CONNECTED_WARNING : string :=
  "WARNING: Cannot send message: not connected to the IoT Hub\n".

(** The twin property main.c reports for an occupancy value. *)
Definition expected_report (occ : bool) : string * Z :=
  ("ParkingBayOccupied"%string, if occ then 1 else 0).

(** What a sample does once its occupancy and colour are known: the
    debounced report, then the traffic light, then the log line. *)
Definition report_and_light (occ : bool) (c : LedBlinkUtility_Colors) (led_rc : Z)
  (g : Globals) : Globals * list event :=
  let '(g', tr) := ReportStatusToIotHub occ g in
  (g', tr ++ [LedBlinkUtility_SetLed ledTraffic c led_rc; Log_Debug "Appox %.1f cm\n"]).

(** The number of places where a sequence of occupancy values changes. *)
Fixpoint transitions (prev : bool) (l : list bool) : nat :=
  match l with
  | [] => O
  | b :: l' => ((if Bool.eqb prev b then 0 else 1) + transitions b l')%nat
  end.

(** The same, counting only the changes that happen on a tick at which
    the client is connected. *)
Fixpoint connected_transitions (prev : bool) (l : list (bool * bool)) : nat :=
  match l with
  | [] => O
  | (connected, b) :: l' =>
      ((if negb (Bool.eqb prev b) && connected then 1 else 0)
       + connected_transitions b l')%nat
  end.

(** Spec 4.2, step 4, on a [SensorEnv]: the first high level, at pass [i],
    and the first low level after it, at pass [j]. *)
Definition rising_at (w : SensorEnv) (i : nat) : Prop :=
  (i < POLL_CEILING)%nat /\ pin_level w i = GPIO_Value_High /\
  forall k, (k < i)%nat -> pin_level w k = GPIO_Value_Low.

Definition falling_at (w : SensorEnv) (i j : nat) : Prop :=
  (i < j < POLL_CEILING)%nat /\ pin_level w j = GPIO_Value_Low /\
  forall k, (i < k < j)%nat -> pin_level w k = GPIO_Value_High.

(** A falling edge is observed within the ceiling: some pass reads high
    and a later pass reads low. *)
Definition falling_edge_observed (w : SensorEnv) : Prop :=
  exists i j, (i < j < POLL_CEILING)%nat /\
              pin_level w i = GPIO_Value_High /\ pin_level w j = GPIO_Value_Low.

Definition acquisition_fails (w : SensorEnv) : Prop :=
  open_output w < 0 \/ open_input w < 0.

(** ** Start-up, shut-down and the main loop *)

(** What the start-up calls return. *)
Record StartupEnv : Set := mk_StartupEnv {
  epoll_fd : Z;
  azure_init_ok : bool;
  timer_fd : Z
}.

(** [InitPeripheralsAndHandlers], lines 193-220: the value returned, the
    globals and the calls made. *)
Definition InitPeripheralsAndHandlers (e : StartupEnv) (g : Globals)
  : Z * Globals * list event :=
  let tr0 := [LedBlinkUtility_OpenLeds; sigaction_SIGTERM; CreateEpollFd (epoll_fd e)] in
  let g1 := set_epollFd (epoll_fd e) g in
  if epollFd g1 <? 0 then (-1, g1, tr0)
  else if negb (azure_init_ok e) then
    (-1, g1,
     tr0 ++ [AzureIoT_Initialize false;
             Log_Debug "ERROR: Cannot initialize Azure IoT Hub SDK.\n"])
  else
    let g2 := set_usTimerFd (timer_fd e) g1 in
    (0, g2,
     tr0 ++ [AzureIoT_Initialize true; AzureIoT_SetConnectionStatusCallback;
             Log_Debug "Opening Ultrasonic\n";
             CreateTimerFdAndAddToEpoll (timer_fd e)]).

(** [ClosePeripheralsAndHandlers], lines 225-233.  [led_rc] is what the
    LED call returns; it is dropped. *)
Definition ClosePeripheralsAndHandlers (led_rc : Z) (g : Globals) : list event :=
  [LedBlinkUtility_SetLed ledTraffic LedBlinkUtility_Colors_Off led_rc;
   LedBlinkUtility_CloseLeds;
   Log_Debug "Closing file descriptors\n";
   CloseFdAndPrintError (usTimerFd g) "USTimer";
   CloseFdAndPrintError (epollFd g) "Epoll"].

(** What one pass of the main loop meets. *)
Record IterEnv : Type := mk_IterEnv {
  (** SIGTERM is delivered during this pass *)
  sigterm : bool;
  (** result of the wait inside [WaitForEventAndCallHandler] *)
  wait_rc : Z;
  (** the timer is ready when the wait returns *)
  timer_ready : option TimerTick;
  (** result of [LedBlinkUtility_SetLed] on the network light *)
  net_led_rc : Z;
  (** [CLOCK_MONOTONIC] at line 273 *)
  now_gate : timespec;
  (** result of [AzureIoT_SetupClient], when it is called *)
  setup_ok : bool;
  (** [CLOCK_MONOTONIC] at line 276 *)
  now_after : timespec;
  (** a connection status the client notifies while one of its functions
      runs in this pass *)
  status_notified : option bool
}.

(** Modelled from the spec: [WaitForEventAndCallHandler] is declared in
    epoll_timerfd_utilities.h and defined outside main.c.  Spec 4.3:
    [wait_and_dispatch] blocks until a registered source is ready, then
    invokes exactly the callbacks of the ready sources; it returns an
    error if the underlying wait call fails.  The only registered source
    is the timer, whose callback is [UltrasonicTimerEventHandler]. *)
Definition WaitForEventAndCallHandler (e : IterEnv) (g : Globals)
  : Z * Globals * list event :=
  if negb (wait_rc e =? 0) then (wait_rc e, g, [epoll_wait (wait_rc e)])
  else
    match timer_ready e with
    | Some t =>
        let '(g', tr) := UltrasonicTimerEventHandler t g in
        (0, g', epoll_wait 0 :: tr)
    | None => (0, g, [epoll_wait 0])
    end.

(** The locals of [main] together with the globals. *)
Record MainState : Set := mk_MainState {
  globals : Globals;
  next_iothub_connect : timespec;
  iothub_connected : bool
}.

Definition iothub_retry_period : timespec := {| tv_sec := 1; tv_nsec := 0 |}.
Definition timespec_1ms : timespec := {| tv_sec := 0; tv_nsec := 1000000 |}.

Definition notify (n : option bool) (g : Globals) : Globals :=
  match n with
  | Some connected => IoTHubConnectionStatusChanged connected g
  | None => g
  end.

(** One pass of the [while] body, lines 256-286, entered with
    [terminationRequired] false: the state after it, the calls made, and
    whether the body was left through [break]. *)
Definition loop_body (e : IterEnv) (s : MainState) : MainState * list event * bool :=
  let g0 := if sigterm e then TerminationHandler (globals s) else globals s in
  let '(rc, g1, tr_wait) := WaitForEventAndCallHandler e g0 in
  let g2 := if negb (rc =? 0) then set_terminationRequired true g1 else g1 in
  let color := if connectedToIoTHub g2 then LedBlinkUtility_Colors_Green
               else LedBlinkUtility_Colors_Off in
  if negb (net_led_rc e =? 0) then
    ({| globals := g2; next_iothub_connect := next_iothub_connect s;
        iothub_connected := iothub_connected s |},
     tr_wait ++ [LedBlinkUtility_SetLed ledNetworkStatus color (net_led_rc e);
                 Log_Debug "ERROR: Set color for network status LED failed\n"],
     true)
  else
    let tr_led := [LedBlinkUtility_SetLed ledNetworkStatus color (net_led_rc e);
                   clock_gettime (now_gate e)] in
    let attempt := TimerCompareGreater (now_gate e) (next_iothub_connect s) in
    let connected' := if attempt then setup_ok e else iothub_connected s in
    let next' := if attempt then TimerAdd (now_after e) iothub_retry_period
                 else next_iothub_connect s in
    let tr_setup := if attempt
                    then [AzureIoT_SetupClient (setup_ok e); clock_gettime (now_after e)]
                    else [] in
    let tr_tasks := if connected' then [AzureIoT_DoPeriodicTasks] else [] in
    let g3 := if attempt || connected' then notify (status_notified e) g2 else g2 in
    ({| globals := g3; next_iothub_connect := next'; iothub_connected := connected' |},
     tr_wait ++ tr_led ++ tr_setup ++ tr_tasks ++ [nanosleep (tv_nsec timespec_1ms)],
     false).

(** The record of one executed pass. *)
Record IterLog : Type := mk_IterLog {
  before : MainState;
  met : IterEnv;
  calls : list event;
  after : MainState;
  broke : bool
}.

(** The record of the pass that meets [e] in state [s]. *)
Definition log_of (e : IterEnv) (s : MainState) : IterLog :=
  {| before := s; met := e; calls := snd (fst (loop_body e s));
     after := fst (fst (loop_body e s)); broke := snd (loop_body e s) |}.

(** The [while] loop over a script of passes: the passes executed, the
    state when the script ends or the loop is left, and whether the loop
    was left. *)
Fixpoint main_loop (script : list IterEnv) (s : MainState)
  : list IterLog * MainState * bool :=
  if terminationRequired (globals s) then ([], s, true)
  else
    match script with
    | [] => ([], s, false)
    | e :: rest =>
        let '(s', tr, brk) := loop_body e s in
        let log := {| before := s; met := e; calls := tr; after := s'; broke := brk |} in
        if brk then ([log], s', true)
        else let '(logs, s'', exited) := main_loop rest s' in
             (log :: logs, s'', exited)
    end.

(** A run of [main], lines 238-292. *)
Record MainRun : Type := mk_MainRun {
  init_rc : Z;
  init_calls : list event;
  passes : list IterLog;
  loop_left : bool;
  shutdown_calls : list event;
  final : MainState
}.

Record ProcessEnv : Type := mk_ProcessEnv {
  startup : StartupEnv;
  (** [CLOCK_MONOTONIC] at line 251 *)
  now_start : timespec;
  script : list IterEnv;
  (** result of the LED call in [ClosePeripheralsAndHandlers] *)
  close_led_rc : Z
}.

Definition main (p : ProcessEnv) : MainRun :=
  let '(rc, g, tr_init) := InitPeripheralsAndHandlers (startup p) process_start in
  let g := if negb (rc =? 0) then set_terminationRequired true g else g in
  let s0 := {| globals := g; next_iothub_connect := now_start p;
               iothub_connected := false |} in
  let '(logs, s, exited) := main_loop (script p) s0 in
  {| init_rc := rc;
     init_calls := Log_Debug "Parking application starting\n" :: tr_init
                   ++ [clock_gettime (now_start p)];
     passes := logs;
     loop_left := exited;
     shutdown_calls :=
       if exited
       then ClosePeripheralsAndHandlers (close_led_rc p) (globals s)
            ++ [Log_Debug "Application exiting\n"]
       else [];
     final := s |}.

(** The pass makes a connection attempt: it calls [AzureIoT_SetupClient]. *)
Definition attempted (l : IterLog) : bool := existsb is_SetupClient (calls l).

(** How often the pass calls [AzureIoT_DoPeriodicTasks]. *)
Definition maintenance_calls (l : IterLog) : nat :=
  List.length (filter is_DoPeriodicTasks (calls l)).

(** The clock of a script never runs backwards: the readings, in the
    order the program takes them, starting at [t]. *)
Fixpoint clock_monotonic (t : timespec) (script : list IterEnv) : Prop :=
  match script with
  | [] => True
  | e :: rest =>
      normalized (now_gate e) /\ normalized (now_after e) /\
      to_ns t <= to_ns (now_gate e) /\
      to_ns (now_gate e) <= to_ns (now_after e) /\
      clock_monotonic (now_after e) rest
  end.

(** The state in which [main] reaches the [while] loop (lines 246-252). *)
Definition initial_state (p : ProcessEnv) : MainState :=
  let '(rc, g, _) := InitPeripheralsAndHandlers (startup p) process_start in
  {| globals := if negb (rc =? 0) then set_terminationRequired true g else g;
     next_iothub_connect := now_start p;
     iothub_connected := false |}.

(** *** Sample runs *)

Definition startup_ok : StartupEnv :=
  {| epoll_fd := 3; azure_init_ok := true; timer_fd := 4 |}.

Definition startup_no_epoll : StartupEnv :=
  {| epoll_fd := -1; azure_init_ok := true; timer_fd := 4 |}.

Definition startup_no_timer : StartupEnv :=
  {| epoll_fd := 3; azure_init_ok := true; timer_fd := -1 |}.

Definition at_ms (ms : Z) : timespec :=
  {| tv_sec := ms / 1000; tv_nsec := (ms mod 1000) * 1000000 |}.

(** A pass in which the wait returns without a ready timer and every call
    succeeds; the clock shows [gate] ms at line 273 and [gate + 20] ms at
    line 276. *)
Definition idle_pass (gate : Z) (ok : bool) (n : option bool) : IterEnv :=
  {| sigterm := false; wait_rc := 0; timer_ready := None; net_led_rc := 0;
     now_gate := at_ms gate; setup_ok := ok; now_after := at_ms (gate + 20);
     status_notified := n |}.

(** A pass in which the timer fires. *)
Definition timer_pass (gate : Z) (t : TimerTick) : IterEnv :=
  {| sigterm := false; wait_rc := 0; timer_ready := Some t; net_led_rc := 0;
     now_gate := at_ms gate; setup_ok := true; now_after := at_ms (gate + 20);
     status_notified := None |}.

(** The client is set up and notifies that it is connected; a second and
    more later the next set-up call fails and nothing is notified. *)
Definition run_setup_then_failure : ProcessEnv :=
  {| startup := startup_ok; now_start := at_ms 10000;
     script := [idle_pass 10500 true (Some true);
                idle_pass 11000 true None;
                idle_pass 11700 false None];
     close_led_rc := 0 |}.

(** The traffic LED call of the handler fails; the run goes on. *)
Definition run_traffic_led_failure : ProcessEnv :=
  {| startup := startup_ok; now_start := at_ms 10000;
     script := [timer_pass 10500
                  {| consume_rc := 0; sensor := echo_290us; traffic_led_rc := -1 |};
                idle_pass 11000 true None];
     close_led_rc := 0 |}.

(** The network LED call of the second pass fails. *)
Definition run_network_led_failure : ProcessEnv :=
  {| startup := startup_ok; now_start := at_ms 10000;
     script := [idle_pass 10500 true (Some true);
                {| sigterm := false; wait_rc := 0; timer_ready := None;
                   net_led_rc := -1; now_gate := at_ms 11000; setup_ok := true;
                   now_after := at_ms 11020; status_notified := None |};
                idle_pass 11700 true None];
     close_led_rc := 0 |}.

Definition run_no_timer : ProcessEnv :=
  {| startup := startup_no_timer; now_start := at_ms 10000;
     script := [idle_pass 10500 true (Some true)];
     close_led_rc := 0 |}.

Definition run_no_epoll : ProcessEnv :=
  {| startup := startup_no_epoll; now_start := at_ms 10000;
     script := [idle_pass 10500 true (Some true)];
     close_led_rc := 0 |}.

(** *** Measures of a trace and of a run *)

Definition is_close (e : event) : bool :=
  match e with close _ => true | _ => false end.

Definition is_clock_gettime (e : event) : bool :=
  match e with clock_gettime _ => true | _ => false end.

(** How often a trace polls the pin. *)
Definition GetValue_calls (tr : list event) : nat :=
  List.length (filter is_GPIO_GetValue tr).

(** The values at which a sequence of occupancy values changes, the
    sequence being preceded by [prev]. *)
Fixpoint changes (prev : bool) (l : list bool) : list bool :=
  match l with
  | [] => []
  | b :: l' => if Bool.eqb prev b then changes b l' else b :: changes b l'
  end.

(** Every value is the negation of the one before it, [prev] coming
    first. *)
Fixpoint alternating (prev : bool) (l : list bool) : Prop :=
  match l with
  | [] => True
  | b :: l' => b = negb prev /\ alternating b l'
  end.

(** Every call of a run, in program order. *)
Definition all_calls (r : MainRun) : list event :=
  init_calls r ++ List.concat (map calls (passes r)) ++ shutdown_calls r.

(** What a pass meets raises [terminationRequired]: SIGTERM (line 57), a
    failed wait (line 257), or a timer event that cannot be drained by
    the handler the wait runs (line 155). *)
Definition raises_termination (e : IterEnv) : bool :=
  sigterm e || negb (wait_rc e =? 0) ||
  match timer_ready e with
  | Some t => negb (consume_rc t =? 0)
  | None => false
  end.

(** The calls one measurement can make. *)
Definition is_sensor_call (e : event) : bool :=
  match e with
  | Log_Debug _ | GPIO_OpenAsOutput _ | GPIO_OpenAsInput _ | GPIO_SetValue _ _
  | GPIO_GetValue _ _ | close _ | nanosleep _ | clock_gettime _ => true
  | _ => false
  end.

(** A call that fits the time before shut-down: it does not set the
    activity indicator, does not turn the traffic indicator off, is
    neither [LedBlinkUtility_CloseLeds] nor [CloseFdAndPrintError] (which
    release the indicators, the timer and the epoll descriptor), and when
    it reports a twin property it reports ParkingBayOccupied as 0 or 1.
    The [close] of a GPIO descriptor is such a call: every measurement
    makes it. *)
Definition running_call (e : event) : Prop :=
  match e with
  | LedBlinkUtility_SetLed ledMessageEventSentReceived _ _ => False
  | LedBlinkUtility_SetLed ledTraffic LedBlinkUtility_Colors_Off _ => False
  | LedBlinkUtility_CloseLeds => False
  | CloseFdAndPrintError _ _ => False
  | AzureIoT_TwinReportState name value =>
      exists occ, (name, value) = expected_report occ
  | _ => True
  end.

(** A measurement that sees both edges, at passes [i] and [j], with
    normalized clock readings at them and a reading other than zero at the
    falling edge. *)
Definition measured_pulse (w : SensorEnv) (i j : nat) : Prop :=
  0 <= open_output w /\ 0 <= open_input w /\
  rising_at w i /\ falling_at w i j /\
  normalized (monotonic_clock w i) /\ normalized (monotonic_clock w j) /\
  monotonic_clock w j <> zero_timespec.

(** The sub-second part of the width of that pulse. *)
Definition subsecond_width (w : SensorEnv) (i j : nat) : Z :=
  (tv_nsec (monotonic_clock w j) - tv_nsec (monotonic_clock w i)) mod 1000000000.

(** The echo of [echo_290us] with two whole seconds more on the clock at
    the falling edge. *)
Definition echo_2s_290us : SensorEnv :=
  pulse 2 9 {| tv_sec := 7; tv_nsec := 999900000 |} {| tv_sec := 10; tv_nsec := 190000 |}.




(** The largest value of a 32-bit [int], [long] or [time_t]. *)
Definition INT32_MAX : Z := 2147483647.

(** * Properties *)

(** ** Time arithmetic *)

Lemma TimerSubtract_nsec_range (s t : timespec) :
  normalized s -> normalized t -> normalized (TimerSubtract s t).
Proof.
  unfold normalized, TimerSubtract, NSEC_PER_SEC; cbn [tv_nsec tv_sec].
  intros Hs Ht.
  destruct (tv_nsec s - tv_nsec t <? 0) eqn:E; cbn [tv_nsec];
    [apply Z.ltb_lt in E | apply Z.ltb_ge in E]; lia.
Qed.

Lemma TimerSubtract_to_ns (s t : timespec) :
  to_ns (TimerSubtract s t) = to_ns s - to_ns t.
Proof.
  unfold to_ns, TimerSubtract, NSEC_PER_SEC; cbn [tv_nsec tv_sec].
  destruct (tv_nsec s - tv_nsec t <? 0); cbn [tv_nsec tv_sec]; lia.
Qed.

Lemma TimerAdd_to_ns (a b : timespec) :
  to_ns (TimerAdd a b) = to_ns a + to_ns b.
Proof.
  unfold to_ns, TimerAdd, NSEC_PER_SEC; cbn [tv_nsec tv_sec].
  destruct (1000000000 <=? tv_nsec a + tv_nsec b); cbn [tv_nsec tv_sec]; lia.
Qed.

Lemma TimerAdd_normalized (a b : timespec) :
  normalized a -> normalized b -> normalized (TimerAdd a b).
Proof.
  unfold normalized, TimerAdd, NSEC_PER_SEC; cbn [tv_nsec tv_sec].
  intros Ha Hb.
  destruct (1000000000 <=? tv_nsec a + tv_nsec b) eqn:E; cbn [tv_nsec];
    [apply Z.leb_le in E | apply Z.leb_gt in E]; lia.
Qed.

Lemma to_ns_inj (a b : timespec) :
  normalized a -> normalized b -> to_ns a = to_ns b -> a = b.
Proof.
  destruct a as [sa na], b as [sb nb].
  unfold normalized, to_ns, NSEC_PER_SEC; cbn [tv_nsec tv_sec].
  intros Ha Hb E.
  assert (sa = sb) by nia. subst sb.
  f_equal. lia.
Qed.

Lemma TimerCompareGreater_to_ns (a b : timespec) :
  normalized a -> normalized b ->
  (TimerCompareGreater a b = true <-> to_ns b < to_ns a).
Proof.
  unfold normalized, TimerCompareGreater, to_ns, NSEC_PER_SEC.
  intros Ha Hb.
  rewrite orb_true_iff, andb_true_iff, !Z.ltb_lt, Z.eqb_eq.
  split.
  - intros [H | [H1 H2]]; nia.
  - intros H.
    destruct (Z.lt_trichotomy (tv_sec a) (tv_sec b)) as [L | [E | G]];
      [nia | right; split; [exact E | nia] | left; exact G].
Qed.

(** No intermediate value of the subtraction leaves a signed range
    [-M-1 .. M] that holds the (non-negative) seconds of both operands,
    so the C code has no signed overflow on clock readings. *)
Lemma sub_in_range (M : Z) (s t : timespec) :
  NSEC_PER_SEC <= M ->
  0 <= tv_sec s <= M -> 0 <= tv_sec t <= M ->
  normalized s -> normalized t ->
  (- M - 1 <= tv_sec s - tv_sec t <= M) /\
  (- M - 1 <= tv_nsec s - tv_nsec t <= M) /\
  (- M - 1 <= tv_sec (TimerSubtract s t) <= M) /\
  (- M - 1 <= tv_nsec (TimerSubtract s t) <= M).
Proof.
  unfold normalized, TimerSubtract, NSEC_PER_SEC; cbn [tv_nsec tv_sec].
  intros HM Hs Ht Ns Nt.
  destruct (tv_nsec s - tv_nsec t <? 0) eqn:E; cbn [tv_nsec tv_sec];
    [apply Z.ltb_lt in E | apply Z.ltb_ge in E]; lia.
Qed.



(** Where the C arithmetic of the subtraction and of the addition that
    undoes it is exact.  [M] is the largest value of the C types
    ([time_t], [long]), at least that of 32 bits: on normalized operands
    whose seconds and whose difference of seconds lie in [-M, M], every
    value the two functions compute lies in the range [-M-1 .. M] of the
    type, so no step overflows and the values are those on [Z].  The
    sub-second difference is below 2^30 in size, so the [double] sum with
    [1e9] is exact. *)
Lemma subtract_add_steps_in_range (M : Z) (a b : timespec) :
  INT32_MAX <= M ->
  - M <= tv_sec a <= M -> - M <= tv_sec b <= M ->
  - M <= tv_sec a - tv_sec b <= M ->
  normalized a -> normalized b ->
  (- M - 1 <= tv_sec a - tv_sec b <= M /\
   - M - 1 <= tv_nsec a - tv_nsec b <= M /\
   - M - 1 <= tv_sec (TimerSubtract a b) <= M /\
   - M - 1 <= tv_nsec (TimerSubtract a b) <= M) /\
  (- M - 1 <= tv_sec (TimerSubtract a b) + tv_sec b <= M /\
   - M - 1 <= tv_nsec (TimerSubtract a b) + tv_nsec b <= M /\
   - M - 1 <= tv_sec (TimerAdd (TimerSubtract a b) b) <= M /\
   - M - 1 <= tv_nsec (TimerAdd (TimerSubtract a b) b) <= M).
Proof.
  unfold normalized, TimerSubtract, TimerAdd, NSEC_PER_SEC, INT32_MAX.
  cbn [tv_nsec tv_sec].
  intros HM Ha Hb Hd Na Nb.
  destruct (tv_nsec a - tv_nsec b <? 0) eqn:E; cbn [tv_nsec tv_sec];
    [apply Z.ltb_lt in E | apply Z.ltb_ge in E];
    match goal with
    | |- context [1000000000 <=? ?x] =>
        destruct (1000000000 <=? x) eqn:C; cbn [tv_nsec tv_sec];
        [apply Z.leb_le in C | apply Z.leb_gt in C]
    end; lia.
Qed.

(** C9: for time intervals [a] and [b] whose sub-second components are in
    [0, 1e9) and whose seconds are representable in the C types together
    with their difference (seconds and difference of seconds in [-M, M],
    [M] the largest value of a type of at least 32 bits, so that no step
    of the C arithmetic overflows), the sub-second component of
    [subtract(a, b)] is in [0, 1e9), and [add(subtract(a, b), b)] is [a]
    again; every value computed on the way is in the range of the
    type. *)
Theorem C9_subtract_normalized_roundtrip (M : Z) (a b : timespec) :
  INT32_MAX <= M ->
  - M <= tv_sec a <= M -> - M <= tv_sec b <= M ->
  - M <= tv_sec a - tv_sec b <= M ->
  normalized a -> normalized b ->
  0 <= tv_nsec (TimerSubtract a b) < 1000000000 /\
  TimerAdd (TimerSubtract a b) b = a /\
  (- M - 1 <= tv_sec a - tv_sec b <= M /\
   - M - 1 <= tv_nsec a - tv_nsec b <= M /\
   - M - 1 <= tv_sec (TimerSubtract a b) <= M /\
   - M - 1 <= tv_nsec (TimerSubtract a b) <= M) /\
  (- M - 1 <= tv_sec (TimerSubtract a b) + tv_sec b <= M /\
   - M - 1 <= tv_nsec (TimerSubtract a b) + tv_nsec b <= M /\
   - M - 1 <= tv_sec (TimerAdd (TimerSubtract a b) b) <= M /\
   - M - 1 <= tv_nsec (TimerAdd (TimerSubtract a b) b) <= M).
Proof.
  intros HM Ha Hb Hd Na Nb.
  pose proof (TimerSubtract_nsec_range a b Na Nb) as Hn.
  split; [exact Hn |].
  split; [| exact (subtract_add_steps_in_range M a b HM Ha Hb Hd Na Nb)].
  apply to_ns_inj.
  - apply TimerAdd_normalized; assumption.
  - exact Na.
  - rewrite TimerAdd_to_ns, TimerSubtract_to_ns. lia.
Qed.

Lemma C9_subtract_normalized_roundtrip_witness :
  let a := {| tv_sec := 5; tv_nsec := 100 |} in
  let b := {| tv_sec := 2147483647; tv_nsec := 999999999 |} in
  INT32_MAX <= INT32_MAX /\
  - INT32_MAX <= tv_sec a <= INT32_MAX /\ - INT32_MAX <= tv_sec b <= INT32_MAX /\
  - INT32_MAX <= tv_sec a - tv_sec b <= INT32_MAX /\
  normalized a /\ normalized b /\
  TimerSubtract a b = {| tv_sec := -2147483643; tv_nsec := 101 |} /\
  0 <= tv_nsec (TimerSubtract a b) < 1000000000 /\
  TimerAdd (TimerSubtract a b) b = a.
Proof.
  cbv zeta.
  assert (HM : INT32_MAX <= INT32_MAX) by lia.
  assert (Ha : - INT32_MAX <= tv_sec {| tv_sec := 5; tv_nsec := 100 |} <= INT32_MAX)
    by (unfold INT32_MAX; simpl; lia).
  assert (Hb : - INT32_MAX
               <= tv_sec {| tv_sec := 2147483647; tv_nsec := 999999999 |}
               <= INT32_MAX)
    by (unfold INT32_MAX; simpl; lia).
  assert (Hd : - INT32_MAX
               <= tv_sec {| tv_sec := 5; tv_nsec := 100 |}
                  - tv_sec {| tv_sec := 2147483647; tv_nsec := 999999999 |}
               <= INT32_MAX)
    by (unfold INT32_MAX; simpl; lia).
  assert (Na : normalized {| tv_sec := 5; tv_nsec := 100 |})
    by (unfold normalized, NSEC_PER_SEC; simpl; lia).
  assert (Nb : normalized {| tv_sec := 2147483647; tv_nsec := 999999999 |})
    by (unfold normalized, NSEC_PER_SEC; simpl; lia).
  destruct (C9_subtract_normalized_roundtrip INT32_MAX _ _ HM Ha Hb Hd Na Nb)
    as (Hn & Hr & _).
  split; [exact HM |]. split; [exact Ha |]. split; [exact Hb |].
  split; [exact Hd |]. split; [exact Na |]. split; [exact Nb |].
  split; [reflexivity |]. split; [exact Hn | exact Hr].
Defined.

(** ** The distance sensor *)

Section Polling.

Variable w : SensorEnv.
Variable fd : Z.

(** Searching a bounded range for the first place where a test holds. *)
Lemma bounded_first (P : nat -> bool) (n i : nat) :
  (forall k, (i <= k < i + n)%nat -> P k = false) \/
  (exists r, (i <= r < i + n)%nat /\ P r = true /\
             forall k, (i <= k < r)%nat -> P k = false).
Proof.
  induction n as [| n IH].
  - left. intros k Hk. lia.
  - destruct IH as [All | (r & Hr & Pr & Before)].
    + destruct (P (i + n)%nat) eqn:E.
      * right. exists (i + n)%nat. repeat split; try lia; assumption.
      * left. intros k Hk.
        destruct (Nat.eq_dec k (i + n)) as [-> | Hne]; [exact E |].
        apply All. lia.
    + right. exists r. repeat split; try lia; assumption.
Qed.

Lemma is_high_true v : is_high v = true <-> v = GPIO_Value_High.
Proof. destruct v; simpl; split; congruence. Qed.

Lemma is_high_false v : is_high v = false <-> v = GPIO_Value_Low.
Proof. destruct v; simpl; split; congruence. Qed.

Lemma negb_is_high_true v : negb (is_high v) = true <-> v = GPIO_Value_Low.
Proof. destruct v; simpl; split; congruence. Qed.

Lemma negb_is_high_false v : negb (is_high v) = false <-> v = GPIO_Value_High.
Proof. destruct v; simpl; split; congruence. Qed.

(** Before the first high level the loop changes nothing. *)
Lemma poll_untriggered_low (n i : nat) (st : PollState) :
  triggered st = false ->
  (forall k, (i <= k < i + n)%nat -> pin_level w k = GPIO_Value_Low) ->
  fst (poll w fd n i st) = st.
Proof.
  revert i. induction n as [| n IH]; intros i Ht Low; simpl; [reflexivity |].
  rewrite (Low i) by lia. rewrite Ht.
  specialize (IH (S i) Ht).
  destruct (poll w fd n (S i) st) as [st' tr]; simpl in *.
  apply IH. intros k Hk. apply Low. lia.
Qed.

(** Once triggered, high levels change nothing. *)
Lemma poll_triggered_high (n i : nat) (st : PollState) :
  triggered st = true ->
  (forall k, (i <= k < i + n)%nat -> pin_level w k = GPIO_Value_High) ->
  fst (poll w fd n i st) = st.
Proof.
  revert i. induction n as [| n IH]; intros i Ht High; simpl; [reflexivity |].
  rewrite (High i) by lia. rewrite Ht.
  specialize (IH (S i) Ht).
  destruct (poll w fd n (S i) st) as [st' tr]; simpl in *.
  apply IH. intros k Hk. apply High. lia.
Qed.

(** Once triggered, the first low level stamps [tsEnd] and ends the loop. *)
Lemma poll_triggered_falls (n i j : nat) (st : PollState) :
  triggered st = true ->
  (i <= j < i + n)%nat ->
  (forall k, (i <= k < j)%nat -> pin_level w k = GPIO_Value_High) ->
  pin_level w j = GPIO_Value_Low ->
  fst (poll w fd n i st) =
  {| tsStart := tsStart st; tsEnd := monotonic_clock w j; triggered := true |}.
Proof.
  revert i. induction n as [| n IH]; intros i Ht Hj High Lowj; [lia |].
  simpl.
  destruct (Nat.eq_dec i j) as [-> | Hne].
  - rewrite Lowj, Ht. reflexivity.
  - rewrite (High i) by lia. rewrite Ht.
    specialize (IH (S i) Ht).
    destruct (poll w fd n (S i) st) as [st' tr]; simpl in *.
    apply IH; [lia | | exact Lowj].
    intros k Hk. apply High. lia.
Qed.

(** The first high level stamps [tsStart]; the loop goes on triggered. *)
Lemma poll_untriggered_rises (n i r : nat) (st : PollState) :
  triggered st = false ->
  (i <= r < i + n)%nat ->
  (forall k, (i <= k < r)%nat -> pin_level w k = GPIO_Value_Low) ->
  pin_level w r = GPIO_Value_High ->
  fst (poll w fd n i st) =
  fst (poll w fd (i + n - S r) (S r)
         {| tsStart := monotonic_clock w r; tsEnd := tsEnd st; triggered := true |}).
Proof.
  revert i. induction n as [| n IH]; intros i Ht Hr Low Highr; [lia |].
  simpl poll at 1.
  destruct (Nat.eq_dec i r) as [-> | Hne].
  - rewrite Highr, Ht.
    replace (r + S n - S r)%nat with n by lia.
    destruct (poll w fd n (S r) _) as [st' tr]; reflexivity.
  - rewrite (Low i) by lia. rewrite Ht.
    specialize (IH (S i) Ht).
    replace (i + S n - S r)%nat with (S i + n - S r)%nat by lia.
    destruct (poll w fd n (S i) st) as [st' tr]; simpl fst in *.
    apply IH; [lia | | exact Highr].
    intros k Hk. apply Low. lia.
Qed.

(** The loop on a rising edge at pass [i] and a falling edge at pass [j]. *)
Lemma poll_edge_pair (i j : nat) :
  rising_at w i -> falling_at w i j ->
  fst (poll w fd POLL_CEILING 0 poll_start) =
  {| tsStart := monotonic_clock w i; tsEnd := monotonic_clock w j; triggered := true |}.
Proof.
  intros (Hi & Highi & Lowb) (Hj & Lowj & Highb).
  rewrite (poll_untriggered_rises POLL_CEILING 0 i poll_start);
    [ | reflexivity | lia | intros k Hk; apply Lowb; lia | exact Highi ].
  rewrite (poll_triggered_falls _ (S i) j);
    [ reflexivity | reflexivity | lia | intros k Hk; apply Highb; lia | exact Lowj ].
Qed.

(** Either there is such a pair of edges, or no pass reads low after a
    pass that read high. *)
Lemma edge_pair_or_none :
  (exists i j, rising_at w i /\ falling_at w i j) \/
  (~ falling_edge_observed w /\
   tsEnd (fst (poll w fd POLL_CEILING 0 poll_start)) = zero_timespec).
Proof.
  destruct (bounded_first (fun k => is_high (pin_level w k)) POLL_CEILING 0)
    as [AllLow | (r & Hr & Highr & Lowb)].
  - right. split.
    + intros (i & j & Hij & Hi & _).
      specialize (AllLow i ltac:(lia)). apply is_high_false in AllLow. congruence.
    + rewrite poll_untriggered_low; [reflexivity | reflexivity |].
      intros k Hk. apply is_high_false. apply AllLow. lia.
  - apply is_high_true in Highr.
    assert (Rise : rising_at w r).
    { repeat split; [lia | exact Highr |].
      intros k Hk. apply is_high_false. apply Lowb. lia. }
    destruct (bounded_first (fun k => negb (is_high (pin_level w k)))
                (POLL_CEILING - S r) (S r))
      as [AllHigh | (j & Hj & Lowj & Highb)].
    + right. split.
      * intros (i & j & Hij & Hi & Hj).
        destruct (Nat.le_gt_cases i r) as [Le | Gt].
        -- destruct (Nat.eq_dec j r) as [-> | Hne].
           ++ congruence.
           ++ destruct (Nat.lt_ge_cases j r) as [Lt | Ge].
              ** destruct Rise as (_ & _ & Lows).
                 specialize (Lows i ltac:(lia)). congruence.
              ** specialize (AllHigh j ltac:(lia)).
                 apply negb_is_high_false in AllHigh. congruence.
        -- specialize (AllHigh j ltac:(lia)).
           apply negb_is_high_false in AllHigh. congruence.
      * rewrite (poll_untriggered_rises POLL_CEILING 0 r poll_start);
          [ | reflexivity | lia
            | intros k Hk; apply is_high_false; apply Lowb; lia | exact Highr ].
        rewrite poll_triggered_high; [reflexivity | reflexivity |].
        intros k Hk. apply negb_is_high_false. apply AllHigh. lia.
    + left. exists r, j. split; [exact Rise |].
      repeat split; try lia.
      * apply negb_is_high_true. exact Lowj.
      * intros k Hk. apply negb_is_high_false. apply Highb. lia.
Qed.

Lemma edge_pair_observed (i j : nat) :
  rising_at w i -> falling_at w i j -> falling_edge_observed w.
Proof.
  intros (Hi & Highi & _) (Hj & Lowj & _).
  exists i, j. repeat split; try lia; assumption.
Qed.

(** The polling loop makes no LED call and no twin report. *)
Lemma poll_quiet (led : RgbLed) (n i : nat) (st : PollState) :
  twin_reports (snd (poll w fd n i st)) = [] /\
  colors_set led (snd (poll w fd n i st)) = [].
Proof.
  revert i st. induction n as [| n IH]; intros i st; simpl; [split; reflexivity |].
  destruct (pin_level w i), (triggered st);
    try (split; reflexivity).
  - specialize (IH (S i) st).
    destruct (poll w fd n (S i) st) as [st' tr]; simpl in *.
    destruct led; exact IH.
  - specialize (IH (S i) st).
    destruct (poll w fd n (S i) st) as [st' tr]; simpl in *.
    destruct led; exact IH.
  - specialize (IH (S i) {| tsStart := monotonic_clock w i; tsEnd := tsEnd st;
                            triggered := true |}).
    destruct (poll w fd n (S i) _) as [st' tr]; simpl in *.
    destruct led; exact IH.
Qed.

End Polling.

Lemma zero_test (t : timespec) :
  (tv_sec t =? 0) && (tv_nsec t =? 0) = true <-> t = zero_timespec.
Proof.
  rewrite andb_true_iff, !Z.eqb_eq. destruct t as [s n]; simpl.
  unfold zero_timespec. split; [intros [-> ->]; reflexivity | intros E].
  inversion E. split; reflexivity.
Qed.

Lemma acquisition_fails_dec (w : SensorEnv) :
  {acquisition_fails w} + {0 <= open_output w /\ 0 <= open_input w}.
Proof.
  unfold acquisition_fails.
  destruct (Z_lt_dec (open_output w) 0); [left; left; assumption |].
  destruct (Z_lt_dec (open_input w) 0); [left; right; assumption |].
  right. lia.
Qed.

(** A failed acquisition: the reading is the unavailable sentinel and the
    pin is never polled. *)
Lemma reading_unavailable (w : SensorEnv) :
  acquisition_fails w ->
  fst (GetUltrasonicReading w) = UNAVAILABLE_SENTINEL /\
  filter is_GPIO_GetValue (snd (GetUltrasonicReading w)) = [] /\
  twin_reports (snd (GetUltrasonicReading w)) = [] /\
  forall led, colors_set led (snd (GetUltrasonicReading w)) = [].
Proof.
  intros Fail. unfold GetUltrasonicReading.
  destruct (open_output w <? 0) eqn:Eo.
  - repeat split; intros led; destruct led; reflexivity.
  - destruct (open_input w <? 0) eqn:Ei.
    + repeat split; intros led; destruct led; reflexivity.
    + apply Z.ltb_ge in Eo, Ei. destruct Fail; lia.
Qed.

(** Both acquisitions succeed: the reading comes from the stamps the
    polling loop left. *)
Lemma reading_measured (w : SensorEnv) :
  0 <= open_output w -> 0 <= open_input w ->
  fst (GetUltrasonicReading w) =
  let st := fst (poll w (open_input w) POLL_CEILING 0 poll_start) in
  if (tv_sec (tsEnd st) =? 0) && (tv_nsec (tsEnd st) =? 0)
  then TIMEOUT_SENTINEL
  else tv_nsec (TimerSubtract (tsEnd st) (tsStart st)) # 58000.
Proof.
  intros Ho Hi. unfold GetUltrasonicReading.
  apply Z.ltb_ge in Ho, Hi. rewrite Ho, Hi.
  destruct (poll w (open_input w) POLL_CEILING 0 poll_start) as [st tr].
  cbv zeta. cbn [fst].
  destruct ((tv_sec (tsEnd st) =? 0) && (tv_nsec (tsEnd st) =? 0)); reflexivity.
Qed.

Lemma reading_quiet (w : SensorEnv) (led : RgbLed) :
  twin_reports (snd (GetUltrasonicReading w)) = [] /\
  colors_set led (snd (GetUltrasonicReading w)) = [].
Proof.
  unfold GetUltrasonicReading.
  destruct (open_output w <? 0); [split; destruct led; reflexivity |].
  destruct (open_input w <? 0); [split; destruct led; reflexivity |].
  pose proof (poll_quiet w (open_input w) led POLL_CEILING 0 poll_start) as [T C].
  destruct (poll w (open_input w) POLL_CEILING 0 poll_start) as [st tr].
  cbn [snd] in T, C.
  assert (T' : twin_reports (tr ++ [close (open_input w)]) = []).
  { clear C. induction tr as [| e tr IH]; [reflexivity |].
    destruct e; simpl in *; try (apply IH; exact T); discriminate. }
  assert (C' : colors_set led (tr ++ [close (open_input w)]) = []).
  { clear T T'. induction tr as [| e tr IH]; [reflexivity |].
    destruct e; simpl in *; try (apply IH; exact C).
    destruct led, led0; simpl in *; try discriminate; apply IH; exact C. }
  destruct ((tv_sec (tsEnd st) =? 0) && (tv_nsec (tsEnd st) =? 0));
    cbn [snd app]; (split; [exact T' | destruct led; exact C']).
Qed.

(** No falling edge within the ceiling: the timeout sentinel. *)
Lemma reading_timeout (w : SensorEnv) :
  0 <= open_output w -> 0 <= open_input w ->
  ~ falling_edge_observed w ->
  fst (GetUltrasonicReading w) = TIMEOUT_SENTINEL.
Proof.
  intros Ho Hi NoEdge. rewrite reading_measured by assumption. cbv zeta.
  destruct (edge_pair_or_none w (open_input w)) as [(i & j & R & F) | [_ E]].
  - exfalso. apply NoEdge. exact (edge_pair_observed w i j R F).
  - apply zero_test in E. rewrite E. reflexivity.
Qed.

(** A rising edge at pass [i] and a falling edge at pass [j]: the reading
    is computed from the two clock readings, unless the second one is the
    zero stamp. *)
Lemma reading_edge_pair (w : SensorEnv) (i j : nat) :
  0 <= open_output w -> 0 <= open_input w ->
  rising_at w i -> falling_at w i j ->
  fst (GetUltrasonicReading w) =
  if (tv_sec (monotonic_clock w j) =? 0) && (tv_nsec (monotonic_clock w j) =? 0)
  then TIMEOUT_SENTINEL
  else tv_nsec (TimerSubtract (monotonic_clock w j) (monotonic_clock w i)) # 58000.
Proof.
  intros Ho Hi R F. rewrite reading_measured by assumption. cbv zeta.
  rewrite (poll_edge_pair w (open_input w) i j R F). reflexivity.
Qed.

Lemma pulse_clock_normalized (first last : nat) (t_rise t_fall : timespec) :
  normalized t_rise -> normalized t_fall ->
  forall i, normalized (monotonic_clock (pulse first last t_rise t_fall) i).
Proof.
  intros Hr Hf i. simpl. destruct (i <? last)%nat; assumption.
Qed.

Lemma echo_23ms_clock : forall i, normalized (monotonic_clock echo_23ms i).
Proof.
  apply pulse_clock_normalized; unfold normalized, NSEC_PER_SEC; simpl; lia.
Defined.

Lemma echo_23ms_falling_edge : falling_edge_observed echo_23ms.
Proof.
  exists 1%nat, 3%nat. unfold POLL_CEILING.
  repeat split; try reflexivity; apply Nat.ltb_lt; vm_compute; reflexivity.
Qed.

Lemma echo_23ms_acquired : ~ acquisition_fails echo_23ms.
Proof. unfold acquisition_fails; simpl. lia. Qed.

Lemma no_echo_no_falling_edge : ~ falling_edge_observed no_echo.
Proof.
  intros (i & j & _ & Hi & _).
  unfold no_echo, pulse in Hi. cbn [pin_level] in Hi.
  replace (i <? 0)%nat with false in Hi by (symmetry; apply Nat.ltb_ge; lia).
  rewrite andb_false_r in Hi. discriminate.
Qed.

Lemma no_echo_acquired : ~ acquisition_fails no_echo.
Proof. unfold acquisition_fails; simpl. lia. Qed.

(** The model on the sample behaviours: 290 us of echo read as 5 cm after
    ten polls; no echo reads as 400 after 10000 polls; a busy pin reads
    as -1 without a poll. *)
Example reading_echo_290us :
  (fst (GetUltrasonicReading echo_290us) == 5)%Q /\
  List.length (filter is_GPIO_GetValue (snd (GetUltrasonicReading echo_290us)))
  = 10%nat.
Proof. split; vm_compute; reflexivity. Qed.

Example reading_no_echo :
  fst (GetUltrasonicReading no_echo) = TIMEOUT_SENTINEL /\
  List.length (filter is_GPIO_GetValue (snd (GetUltrasonicReading no_echo)))
  = POLL_CEILING.
Proof. split; vm_compute; reflexivity. Qed.

Example reading_busy_pin :
  GetUltrasonicReading output_busy =
    (UNAVAILABLE_SENTINEL,
     [GPIO_OpenAsOutput (-1);
      Log_Debug "ERROR: Could not open Ultrasonic Output GPIO: %s (%d).\n"]) /\
  fst (GetUltrasonicReading input_busy) = UNAVAILABLE_SENTINEL /\
  filter is_GPIO_GetValue (snd (GetUltrasonicReading input_busy)) = [].
Proof. repeat split. Qed.

(** C3, as stated, fails: with an echo of 23.2 ms the falling edge is
    observed within the ceiling and both acquisitions succeed, yet the
    value returned is the timeout sentinel 400
    (23200000 / 58000.0 = 400.0). *)
Lemma C3_timeout_iff_no_falling_edge_counterexample :
  falling_edge_observed echo_23ms /\
  ~ acquisition_fails echo_23ms /\
  fst (GetUltrasonicReading echo_23ms) == TIMEOUT_SENTINEL /\
  ~ (fst (GetUltrasonicReading echo_23ms) == TIMEOUT_SENTINEL <->
     ~ falling_edge_observed echo_23ms).
Proof.
  assert (R : fst (GetUltrasonicReading echo_23ms) == TIMEOUT_SENTINEL)
    by (vm_compute; reflexivity).
  split; [exact echo_23ms_falling_edge |].
  split; [exact echo_23ms_acquired |].
  split; [exact R |].
  intros [H _]. exact (H R echo_23ms_falling_edge).
Qed.

(** C3, amended: the value returned is the unavailable sentinel -1
    exactly when one of the two GPIO acquisitions fails, and then the pin
    is not polled; when both succeed and no falling edge is observed
    within the 10000 passes the value is the timeout sentinel 400; the two
    sentinels differ.  The value 400 is returned exactly when both
    acquisitions succeed and either no falling edge is observed, or one is
    observed and the clock reading taken at it is the zero stamp or lies
    23200000 ns (sub-second part) after the reading taken at the rising
    edge. *)
Theorem C3_sentinels (w : SensorEnv)
  (Hclock : forall i, normalized (monotonic_clock w i)) :
  let r := fst (GetUltrasonicReading w) in
  (r == UNAVAILABLE_SENTINEL <-> acquisition_fails w) /\
  (acquisition_fails w ->
   filter is_GPIO_GetValue (snd (GetUltrasonicReading w)) = []) /\
  (~ acquisition_fails w -> ~ falling_edge_observed w -> r == TIMEOUT_SENTINEL) /\
  (r == TIMEOUT_SENTINEL <->
   ~ acquisition_fails w /\
   (~ falling_edge_observed w \/
    exists i j, rising_at w i /\ falling_at w i j /\
      (monotonic_clock w j = zero_timespec \/
       tv_nsec (TimerSubtract (monotonic_clock w j) (monotonic_clock w i))
       = 23200000))) /\
  ~ UNAVAILABLE_SENTINEL == TIMEOUT_SENTINEL.
Proof.
  cbv zeta.
  assert (Distinct : ~ UNAVAILABLE_SENTINEL == TIMEOUT_SENTINEL)
    by (unfold Qeq; simpl; lia).
  assert (Measured : forall i j, rising_at w i -> falling_at w i j ->
            0 <= tv_nsec (TimerSubtract (monotonic_clock w j) (monotonic_clock w i))).
  { intros i j _ _.
    pose proof (TimerSubtract_nsec_range _ _ (Hclock j) (Hclock i)) as N.
    unfold normalized in N. lia. }
  destruct (acquisition_fails_dec w) as [Fail | [Ho Hi]].
  - destruct (reading_unavailable w Fail) as (R & NoPoll & _).
    rewrite R.
    split; [split; [intros _; exact Fail | reflexivity] |].
    split; [intros _; exact NoPoll |].
    split; [intros NF; contradiction |].
    split; [| exact Distinct].
    split; [intros E; contradiction | intros [NF _]; contradiction].
  - assert (NF : ~ acquisition_fails w) by (unfold acquisition_fails; lia).
    destruct (edge_pair_or_none w (open_input w))
      as [(i & j & R & F) | [NoEdge _]].
    + pose proof (reading_edge_pair w i j Ho Hi R F) as Rd.
      pose proof (Measured i j R F) as Pos.
      pose proof (edge_pair_observed w i j R F) as Edge.
      destruct ((tv_sec (monotonic_clock w j) =? 0)
                && (tv_nsec (monotonic_clock w j) =? 0)) eqn:Z0.
      * rewrite Rd. apply zero_test in Z0.
        split; [split; [intros E; symmetry in E; contradiction
                       | intros Fl; contradiction] |].
        split; [intros Fl; contradiction |].
        split; [reflexivity |].
        split; [| exact Distinct].
        split; [| reflexivity].
        intros _. split; [exact NF |].
        right. exists i, j. split; [exact R |]. split; [exact F |].
        left. exact Z0.
      * rewrite Rd.
        split.
        { split; [| intros Fl; contradiction].
          unfold Qeq, UNAVAILABLE_SENTINEL; simpl. lia. }
        split; [intros Fl; contradiction |].
        split; [intros _ NE; contradiction |].
        split; [| exact Distinct].
        split.
        { intros E. split; [exact NF |].
          right. exists i, j. split; [exact R |]. split; [exact F |].
          right. unfold Qeq, TIMEOUT_SENTINEL in E; simpl in E. lia. }
        { intros [_ [NE | (i' & j' & R' & F' & Hc)]]; [contradiction |].
          pose proof (reading_edge_pair w i' j' Ho Hi R' F') as Rd'.
          rewrite Rd in Rd'.
          destruct Hc as [Zero | Width].
          - apply zero_test in Zero. rewrite Zero in Rd'. rewrite Rd'. reflexivity.
          - destruct ((tv_sec (monotonic_clock w j') =? 0)
                      && (tv_nsec (monotonic_clock w j') =? 0));
              rewrite Rd'; [reflexivity |].
            rewrite Width. unfold Qeq, TIMEOUT_SENTINEL; simpl. reflexivity. }
    + pose proof (reading_timeout w Ho Hi NoEdge) as Rd. rewrite Rd.
      split; [split; [intros E; symmetry in E; contradiction
                     | intros Fl; contradiction] |].
      split; [intros Fl; contradiction |].
      split; [reflexivity |].
      split; [| exact Distinct].
      split; [| reflexivity].
      intros _. split; [exact NF |]. left. exact NoEdge.
Qed.

Lemma C3_sentinels_witness :
  (forall i, normalized (monotonic_clock echo_23ms i)) /\
  (fst (GetUltrasonicReading echo_23ms) == UNAVAILABLE_SENTINEL <->
   acquisition_fails echo_23ms) /\
  ~ UNAVAILABLE_SENTINEL == TIMEOUT_SENTINEL.
Proof.
  split; [exact echo_23ms_clock |].
  pose proof (C3_sentinels echo_23ms echo_23ms_clock) as H.
  cbv zeta in H.
  split; [exact (proj1 H) | exact (proj2 (proj2 (proj2 (proj2 H))))].
Defined.

(** ** The occupancy reporter *)

Lemma Qgt_bool_true (x y : Q) : Qgt_bool x y = true <-> (y < x)%Q.
Proof.
  unfold Qgt_bool. rewrite negb_true_iff, <- not_true_iff_false, Qle_bool_iff.
  split; [apply Qnot_le_lt | apply Qlt_not_le].
Qed.

Lemma Qgt_bool_false (x y : Q) : Qgt_bool x y = false <-> (x <= y)%Q.
Proof.
  unfold Qgt_bool. rewrite negb_false_iff. apply Qle_bool_iff.
Qed.

Lemma spec_tier_clear (d : Q) : (8 < d)%Q -> spec_tier d = clear.
Proof.
  intros H. unfold spec_tier.
  assert (H2 : Qle_bool d 2 = false).
  { apply not_true_iff_false. rewrite Qle_bool_iff. apply Qlt_not_le.
    apply Qlt_trans with 8%Q; [reflexivity | exact H]. }
  assert (H8 : Qle_bool d 8 = false).
  { apply not_true_iff_false. rewrite Qle_bool_iff. apply Qlt_not_le. exact H. }
  rewrite H2, H8. reflexivity.
Qed.

Lemma spec_tier_near (d : Q) : (2 < d)%Q -> (d <= 8)%Q -> spec_tier d = near.
Proof.
  intros H2 H8. unfold spec_tier.
  assert (E2 : Qle_bool d 2 = false).
  { apply not_true_iff_false. rewrite Qle_bool_iff. apply Qlt_not_le. exact H2. }
  apply Qle_bool_iff in H8. rewrite E2, H8. reflexivity.
Qed.

Lemma spec_tier_occupied (d : Q) : (d <= 2)%Q -> spec_tier d = occupied.
Proof.
  intros H. unfold spec_tier. apply Qle_bool_iff in H. rewrite H. reflexivity.
Qed.

(** The three branches of the handler are the three tiers of the spec. *)
Lemma classify_and_report_tier (d : Q) (rc : Z) (g : Globals) :
  classify_and_report d rc g =
  report_and_light (occupancy_of d) (spec_color (spec_tier d)) rc g.
Proof.
  unfold classify_and_report, occupancy_of.
  destruct (Qgt_bool d 8) eqn:E8.
  - apply Qgt_bool_true in E8. rewrite (spec_tier_clear d E8). reflexivity.
  - apply Qgt_bool_false in E8.
    destruct (Qgt_bool d 2) eqn:E2.
    + apply Qgt_bool_true in E2. rewrite (spec_tier_near d E2 E8). reflexivity.
    + apply Qgt_bool_false in E2. rewrite (spec_tier_occupied d E2). reflexivity.
Qed.

Lemma twin_reports_app (a b : list event) :
  twin_reports (a ++ b) = twin_reports a ++ twin_reports b.
Proof.
  induction a as [| e a IH]; [reflexivity |].
  destruct e; simpl; rewrite ?IH; reflexivity.
Qed.

Lemma colors_set_app (led : RgbLed) (a b : list event) :
  colors_set led (a ++ b) = colors_set led a ++ colors_set led b.
Proof.
  induction a as [| e a IH]; [reflexivity |].
  destruct e; simpl; rewrite ?IH; try reflexivity.
  destruct led, led0; simpl; rewrite ?IH; reflexivity.
Qed.

(** What [ReportStatusToIotHub] leaves behind. *)
Lemma ReportStatusToIotHub_effect (occ : bool) (g : Globals) :
  fst (ReportStatusToIotHub occ g) = set_occupiedState occ g /\
  twin_reports (snd (ReportStatusToIotHub occ g)) =
    (if negb (Bool.eqb (occupiedState g) occ) && connectedToIoTHub g
     then [expected_report occ] else []) /\
  forall led, colors_set led (snd (ReportStatusToIotHub occ g)) = [].
Proof.
  unfold ReportStatusToIotHub.
  destruct g as [e u c o t]; simpl.
  destruct o, occ, c; simpl; repeat split; intros led; destruct led; reflexivity.
Qed.

Lemma report_and_light_effect (occ : bool) (c : LedBlinkUtility_Colors) (rc : Z)
  (g : Globals) :
  fst (report_and_light occ c rc g) = set_occupiedState occ g /\
  twin_reports (snd (report_and_light occ c rc g)) =
    (if negb (Bool.eqb (occupiedState g) occ) && connectedToIoTHub g
     then [expected_report occ] else []) /\
  colors_set ledTraffic (snd (report_and_light occ c rc g)) = [c].
Proof.
  unfold report_and_light.
  destruct (ReportStatusToIotHub_effect occ g) as (S & T & C).
  destruct (ReportStatusToIotHub occ g) as [g' tr]; simpl in *.
  split; [exact S |].
  rewrite twin_reports_app, colors_set_app, T, C. simpl.
  split; [apply app_nil_r | reflexivity].
Qed.

(** C4: the classifier is strict at the upper bounds.  A distance of
    exactly 8 is tier near with occupancy true; every distance above 8
    (8.01 for one) is tier clear with occupancy false; every distance of
    at most 2 (2 itself for one) is tier occupied with occupancy true; the
    tiers clear, near, occupied light the traffic indicator Green, Yellow,
    Red. *)
Theorem C4_threshold_boundaries (rc : Z) (g : Globals) :
  (spec_tier 8 = near /\
   classify_and_report 8 rc g =
   report_and_light true LedBlinkUtility_Colors_Yellow rc g) /\
  (forall d : Q, (8 < d)%Q ->
     spec_tier d = clear /\
     classify_and_report d rc g =
     report_and_light false LedBlinkUtility_Colors_Green rc g) /\
  (spec_tier (801 # 100) = clear /\
   classify_and_report (801 # 100) rc g =
   report_and_light false LedBlinkUtility_Colors_Green rc g) /\
  (forall d : Q, (d <= 2)%Q ->
     spec_tier d = occupied /\
     classify_and_report d rc g =
     report_and_light true LedBlinkUtility_Colors_Red rc g) /\
  (spec_tier 2 = occupied /\
   classify_and_report 2 rc g =
   report_and_light true LedBlinkUtility_Colors_Red rc g) /\
  (forall d : Q,
     classify_and_report d rc g =
     report_and_light (spec_occupancy (spec_tier d)) (spec_color (spec_tier d)) rc g) /\
  (spec_occupancy clear = false /\ spec_color clear = LedBlinkUtility_Colors_Green) /\
  (spec_occupancy near = true /\ spec_color near = LedBlinkUtility_Colors_Yellow) /\
  (spec_occupancy occupied = true /\ spec_color occupied = LedBlinkUtility_Colors_Red).
Proof.
  assert (Above : forall d : Q, (8 < d)%Q ->
            spec_tier d = clear /\
            classify_and_report d rc g =
            report_and_light false LedBlinkUtility_Colors_Green rc g).
  { intros d H. rewrite classify_and_report_tier. unfold occupancy_of.
    rewrite (spec_tier_clear d H). split; reflexivity. }
  assert (Below : forall d : Q, (d <= 2)%Q ->
            spec_tier d = occupied /\
            classify_and_report d rc g =
            report_and_light true LedBlinkUtility_Colors_Red rc g).
  { intros d H. rewrite classify_and_report_tier. unfold occupancy_of.
    rewrite (spec_tier_occupied d H). split; reflexivity. }
  split; [split; reflexivity |].
  split; [exact Above |].
  split; [apply Above; reflexivity |].
  split; [exact Below |].
  split; [apply Below; discriminate |].
  split; [intros d; apply classify_and_report_tier |].
  repeat split.
Qed.

Lemma C4_threshold_boundaries_witness :
  (8 < 9)%Q /\ (1 <= 2)%Q /\
  classify_and_report 9 0 connected_start =
  report_and_light false LedBlinkUtility_Colors_Green 0 connected_start /\
  classify_and_report 1 0 connected_start =
  report_and_light true LedBlinkUtility_Colors_Red 0 connected_start.
Proof.
  assert (H9 : (8 < 9)%Q) by reflexivity.
  assert (H1 : (1 <= 2)%Q) by discriminate.
  pose proof (C4_threshold_boundaries 0 connected_start)
    as (_ & Above & _ & Below & _).
  split; [exact H9 |].
  split; [exact H1 |].
  split; [exact (proj2 (Above 9%Q H9)) | exact (proj2 (Below 1%Q H1))].
Defined.

(** C1, as stated, fails: the scripted run emits two reports, not three,
    and their values are not [false, true, false]. *)
Lemma C1_three_reports_counterexample :
  let tr := snd (feed_samples scripted_samples connected_start) in
  List.length (twin_reports tr) <> 3%nat /\
  map snd (twin_reports tr) <> [0; 1; 0].
Proof.
  cbv zeta. split; vm_compute; discriminate.
Qed.

(** C1, amended: for the scripted samples [10, 10, 5, 5, 1, 10], fed one
    per timer tick into the classify-and-report path from the process
    start state with telemetry connected, exactly two reports are
    emitted, with values [true, false] in that order (the stored occupancy
    starts as false, so the leading clear samples report nothing), and the
    traffic indicator is set to [Green, Green, Yellow, Yellow, Red,
    Green]. *)
Theorem C1_scripted_run :
  let tr := snd (feed_samples scripted_samples connected_start) in
  twin_reports tr = [expected_report true; expected_report false] /\
  List.length (twin_reports tr) = 2%nat /\
  colors_set ledTraffic tr =
    [LedBlinkUtility_Colors_Green; LedBlinkUtility_Colors_Green;
     LedBlinkUtility_Colors_Yellow; LedBlinkUtility_Colors_Yellow;
     LedBlinkUtility_Colors_Red; LedBlinkUtility_Colors_Green].
Proof.
  cbv zeta. repeat split; vm_compute; reflexivity.
Qed.

(** The handler once the timer event is drained: measure, then classify
    and report. *)
Lemma UltrasonicTimerEventHandler_drained (t : TimerTick) (g : Globals) :
  consume_rc t = 0 ->
  UltrasonicTimerEventHandler t g =
  (fst (classify_and_report (fst (GetUltrasonicReading (sensor t)))
          (traffic_led_rc t) g),
   ConsumeTimerFdEvent 0
   :: snd (GetUltrasonicReading (sensor t))
   ++ snd (classify_and_report (fst (GetUltrasonicReading (sensor t)))
             (traffic_led_rc t) g)).
Proof.
  intros Hc. unfold UltrasonicTimerEventHandler. rewrite Hc. simpl.
  destruct (GetUltrasonicReading (sensor t)) as [cms measured].
  cbn [fst snd].
  destruct (classify_and_report cms (traffic_led_rc t) g) as [g' tr].
  reflexivity.
Qed.

(** What the handler leaves behind for a sample of known tier. *)
Lemma handler_effect (t : TimerTick) (g : Globals) :
  consume_rc t = 0 ->
  let cms := fst (GetUltrasonicReading (sensor t)) in
  let r := UltrasonicTimerEventHandler t g in
  occupiedState (fst r) = occupancy_of cms /\
  terminationRequired (fst r) = terminationRequired g /\
  colors_set ledTraffic (snd r) = [spec_color (spec_tier cms)] /\
  twin_reports (snd r) =
    (if negb (Bool.eqb (occupiedState g) (occupancy_of cms)) && connectedToIoTHub g
     then [expected_report (occupancy_of cms)] else []).
Proof.
  intros Hc. cbv zeta.
  rewrite (UltrasonicTimerEventHandler_drained t g Hc).
  rewrite classify_and_report_tier.
  destruct (report_and_light_effect
              (occupancy_of (fst (GetUltrasonicReading (sensor t))))
              (spec_color (spec_tier (fst (GetUltrasonicReading (sensor t)))))
              (traffic_led_rc t) g) as (S & T & C).
  destruct (reading_quiet (sensor t) ledTraffic) as [QT QC].
  cbn [fst snd]. rewrite S.
  change (colors_set ledTraffic (ConsumeTimerFdEvent 0 :: ?l))
    with (colors_set ledTraffic l).
  change (twin_reports (ConsumeTimerFdEvent 0 :: ?l)) with (twin_reports l).
  rewrite colors_set_app, twin_reports_app, QT, QC, T, C.
  repeat split.
Qed.

(** C10: when the measurement returns the unavailable sentinel -1 (a GPIO
    acquisition failed) the handler classifies it through the ordinary
    thresholds: occupancy true, traffic indicator Red, and a report of
    "occupied" when the stored occupancy was false and the client is
    connected.  The timeout sentinel 400 classifies as occupancy false,
    traffic indicator Green, and is reported in the same way.  Neither is
    kept out of classification or reporting. *)
Theorem C10_sentinels_are_classified (t : TimerTick) (g : Globals)
  (Hdrained : consume_rc t = 0) :
  let r := UltrasonicTimerEventHandler t g in
  (acquisition_fails (sensor t) ->
     fst (GetUltrasonicReading (sensor t)) = UNAVAILABLE_SENTINEL /\
     occupiedState (fst r) = true /\
     colors_set ledTraffic (snd r) = [LedBlinkUtility_Colors_Red] /\
     (occupiedState g = false -> connectedToIoTHub g = true ->
      twin_reports (snd r) = [expected_report true])) /\
  (~ acquisition_fails (sensor t) -> ~ falling_edge_observed (sensor t) ->
     fst (GetUltrasonicReading (sensor t)) = TIMEOUT_SENTINEL /\
     occupiedState (fst r) = false /\
     colors_set ledTraffic (snd r) = [LedBlinkUtility_Colors_Green] /\
     (occupiedState g = true -> connectedToIoTHub g = true ->
      twin_reports (snd r) = [expected_report false])) /\
  classify_and_report UNAVAILABLE_SENTINEL (traffic_led_rc t) g =
    report_and_light true LedBlinkUtility_Colors_Red (traffic_led_rc t) g /\
  classify_and_report TIMEOUT_SENTINEL (traffic_led_rc t) g =
    report_and_light false LedBlinkUtility_Colors_Green (traffic_led_rc t) g.
Proof.
  cbv zeta.
  destruct (handler_effect t g Hdrained) as (O & _ & C & T).
  split; [| split; [| split; reflexivity]].
  - intros Fail.
    destruct (reading_unavailable (sensor t) Fail) as (R & _).
    rewrite R in O, C, T.
    split; [exact R |]. split; [exact O |]. split; [exact C |].
    intros Ho Hc. rewrite T, Ho, Hc. reflexivity.
  - intros NF NoEdge.
    assert (R : fst (GetUltrasonicReading (sensor t)) = TIMEOUT_SENTINEL).
    { apply reading_timeout; [| | exact NoEdge];
        unfold acquisition_fails in NF; lia. }
    rewrite R in O, C, T.
    split; [exact R |]. split; [exact O |]. split; [exact C |].
    intros Ho Hc. rewrite T, Ho, Hc. reflexivity.
Qed.

Lemma C10_sentinels_are_classified_witness :
  let busy := {| consume_rc := 0; sensor := output_busy; traffic_led_rc := 0 |} in
  let silent := {| consume_rc := 0; sensor := no_echo; traffic_led_rc := 0 |} in
  let parked := set_occupiedState true connected_start in
  consume_rc busy = 0 /\ acquisition_fails (sensor busy) /\
  occupiedState (fst (UltrasonicTimerEventHandler busy connected_start)) = true /\
  colors_set ledTraffic (snd (UltrasonicTimerEventHandler busy connected_start))
  = [LedBlinkUtility_Colors_Red] /\
  twin_reports (snd (UltrasonicTimerEventHandler busy connected_start))
  = [expected_report true] /\
  consume_rc silent = 0 /\ ~ acquisition_fails (sensor silent) /\
  ~ falling_edge_observed (sensor silent) /\
  colors_set ledTraffic (snd (UltrasonicTimerEventHandler silent parked))
  = [LedBlinkUtility_Colors_Green] /\
  twin_reports (snd (UltrasonicTimerEventHandler silent parked))
  = [expected_report false].
Proof.
  cbv zeta.
  set (busy := {| consume_rc := 0; sensor := output_busy; traffic_led_rc := 0 |}).
  set (silent := {| consume_rc := 0; sensor := no_echo; traffic_led_rc := 0 |}).
  assert (Hb : consume_rc busy = 0) by reflexivity.
  assert (Hs : consume_rc silent = 0) by reflexivity.
  assert (Fail : acquisition_fails (sensor busy)) by (left; simpl; lia).
  destruct (C10_sentinels_are_classified busy connected_start Hb)
    as (Unavailable & _).
  destruct (C10_sentinels_are_classified silent
              (set_occupiedState true connected_start) Hs)
    as (_ & Timeout & _).
  destruct (Unavailable Fail) as (_ & O & C & T).
  destruct (Timeout no_echo_acquired no_echo_no_falling_edge) as (_ & _ & C' & T').
  split; [exact Hb |]. split; [exact Fail |].
  split; [exact O |]. split; [exact C |].
  split; [apply T; reflexivity |].
  split; [exact Hs |]. split; [exact no_echo_acquired |].
  split; [exact no_echo_no_falling_edge |].
  split; [exact C' |].
  apply T'; reflexivity.
Defined.

Lemma classify_and_report_effect (d : Q) (rc : Z) (g : Globals) :
  fst (classify_and_report d rc g) = set_occupiedState (occupancy_of d) g /\
  twin_reports (snd (classify_and_report d rc g)) =
    (if negb (Bool.eqb (occupiedState g) (occupancy_of d)) && connectedToIoTHub g
     then [expected_report (occupancy_of d)] else []).
Proof.
  rewrite classify_and_report_tier.
  destruct (report_and_light_effect (occupancy_of d) (spec_color (spec_tier d)) rc g)
    as (S & T & _).
  split; assumption.
Qed.

Lemma ReportStatusToIotHub_cases (occ : bool) (g : Globals) :
  (occupiedState g = occ -> ReportStatusToIotHub occ g = (g, [])) /\
  (occupiedState g <> occ -> connectedToIoTHub g = true ->
   ReportStatusToIotHub occ g =
   (set_occupiedState occ g,
    [AzureIoT_TwinReportState "ParkingBayOccupied" (if occ then 1 else 0)])) /\
  (occupiedState g <> occ -> connectedToIoTHub g = false ->
   ReportStatusToIotHub occ g =
   (set_occupiedState occ g, [Log_Debug NOT_CONNECTED_WARNING])).
Proof.
  unfold ReportStatusToIotHub.
  destruct g as [e u c o t]; simpl.
  destruct o, occ, c; simpl; repeat split; intros; congruence.
Qed.

Lemma feed_ticks_reports (ticks : list (bool * Q)) (g : Globals) :
  List.length (twin_reports (snd (feed_ticks ticks g))) =
  connected_transitions (occupiedState g)
    (map (fun t => (fst t, occupancy_of (snd t))) ticks).
Proof.
  revert g. induction ticks as [| [c d] ticks IH]; intros g; [reflexivity |].
  simpl.
  destruct (classify_and_report_effect d 0 (IoTHubConnectionStatusChanged c g))
    as (S & T).
  destruct (classify_and_report d 0 (IoTHubConnectionStatusChanged c g))
    as [g1 tr1]; cbn [fst snd] in S, T.
  specialize (IH g1).
  destruct (feed_ticks ticks g1) as [g2 tr2]; cbn [fst snd] in *.
  rewrite twin_reports_app, length_app, IH, T, S. simpl.
  destruct (negb (Bool.eqb (occupiedState g) (occupancy_of d)) && c); reflexivity.
Qed.

Lemma feed_samples_reports (samples : list Q) (g : Globals) :
  connectedToIoTHub g = true ->
  List.length (twin_reports (snd (feed_samples samples g))) =
  transitions (occupiedState g) (map occupancy_of samples).
Proof.
  revert g. induction samples as [| d samples IH]; intros g Hc; [reflexivity |].
  simpl.
  destruct (classify_and_report_effect d 0 g) as (S & T).
  destruct (classify_and_report d 0 g) as [g1 tr1]; cbn [fst snd] in S, T.
  assert (Hc1 : connectedToIoTHub g1 = true) by (rewrite S; exact Hc).
  specialize (IH g1 Hc1).
  destruct (feed_samples samples g1) as [g2 tr2]; cbn [fst snd] in *.
  rewrite twin_reports_app, length_app, IH, T, S, Hc. simpl.
  destruct (Bool.eqb (occupiedState g) (occupancy_of d)); reflexivity.
Qed.

(** C2: a sample is reported to the telemetry client only when its
    occupancy differs from the stored one; when it differs and the client
    is not connected the report is dropped with a warning and nothing is
    sent; after every sample the stored occupancy is the computed one,
    whether or not a report was emitted; so over any sequence of samples
    the number of reports emitted while connected is the number of
    changes of the occupancy value, not the number of samples. *)
Theorem C2_debounced_reports :
  (forall (occ : bool) (g : Globals),
     (occupiedState g = occ -> snd (ReportStatusToIotHub occ g) = []) /\
     (occupiedState g <> occ -> connectedToIoTHub g = true ->
      snd (ReportStatusToIotHub occ g) =
      [AzureIoT_TwinReportState "ParkingBayOccupied" (if occ then 1 else 0)]) /\
     (occupiedState g <> occ -> connectedToIoTHub g = false ->
      snd (ReportStatusToIotHub occ g) = [Log_Debug NOT_CONNECTED_WARNING]) /\
     occupiedState (fst (ReportStatusToIotHub occ g)) = occ) /\
  (forall (d : Q) (rc : Z) (g : Globals),
     (twin_reports (snd (classify_and_report d rc g)) <> [] ->
      occupiedState g <> occupancy_of d) /\
     (connectedToIoTHub g = false ->
      twin_reports (snd (classify_and_report d rc g)) = []) /\
     occupiedState (fst (classify_and_report d rc g)) = occupancy_of d) /\
  (forall (ticks : list (bool * Q)) (g : Globals),
     List.length (twin_reports (snd (feed_ticks ticks g))) =
     connected_transitions (occupiedState g)
       (map (fun t => (fst t, occupancy_of (snd t))) ticks)) /\
  (forall (samples : list Q) (g : Globals),
     connectedToIoTHub g = true ->
     List.length (twin_reports (snd (feed_samples samples g))) =
     transitions (occupiedState g) (map occupancy_of samples)).
Proof.
  split; [| split; [| split; [exact feed_ticks_reports | exact feed_samples_reports]]].
  - intros occ g.
    destruct (ReportStatusToIotHub_cases occ g) as (Same & Sent & Dropped).
    destruct (ReportStatusToIotHub_effect occ g) as (S & _).
    split; [intros E; rewrite (Same E); reflexivity |].
    split; [intros D C; rewrite (Sent D C); reflexivity |].
    split; [intros D C; rewrite (Dropped D C); reflexivity |].
    rewrite S. reflexivity.
  - intros d rc g.
    destruct (classify_and_report_effect d rc g) as (S & T).
    split; [| split].
    + rewrite T. intros NE E. apply NE.
      rewrite E, Bool.eqb_reflx. reflexivity.
    + intros C. rewrite T, C, andb_false_r. reflexivity.
    + rewrite S. reflexivity.
Qed.

Lemma C2_debounced_reports_witness :
  connectedToIoTHub connected_start = true /\
  occupiedState connected_start <> true /\
  snd (ReportStatusToIotHub true connected_start) =
    [AzureIoT_TwinReportState "ParkingBayOccupied" 1] /\
  List.length (twin_reports (snd (feed_samples scripted_samples connected_start))) =
  transitions (occupiedState connected_start) (map occupancy_of scripted_samples).
Proof.
  assert (C : connectedToIoTHub connected_start = true) by reflexivity.
  assert (D : occupiedState connected_start <> true) by (simpl; discriminate).
  pose proof C2_debounced_reports as (Report & _ & _ & Samples).
  destruct (Report true connected_start) as (_ & Sent & _).
  split; [exact C |]. split; [exact D |].
  split; [exact (Sent D C) | exact (Samples scripted_samples connected_start C)].
Defined.

(** ** The main loop *)

Lemma no_client_calls_app (a b : list event) :
  no_client_calls a -> no_client_calls b -> no_client_calls (a ++ b).
Proof. intros A B. apply Forall_app. split; assumption. Qed.

Lemma no_client_calls_filter (tr : list event) :
  no_client_calls tr ->
  existsb is_SetupClient tr = false /\ filter is_DoPeriodicTasks tr = [].
Proof.
  induction 1 as [| e tr He _ [IH1 IH2]]; [split; reflexivity |].
  unfold client_call in He. apply orb_false_iff in He as [H1 H2].
  simpl. rewrite H1, H2, IH1, IH2. split; reflexivity.
Qed.

Lemma poll_no_client_calls (w : SensorEnv) (fd : Z) (n i : nat) (st : PollState) :
  no_client_calls (snd (poll w fd n i st)).
Proof.
  revert i st. induction n as [| n IH]; intros i st; simpl; [constructor |].
  destruct (pin_level w i), (triggered st).
  - repeat constructor.
  - specialize (IH (S i) st).
    destruct (poll w fd n (S i) st) as [st' tr]; simpl in *.
    constructor; [reflexivity | exact IH].
  - specialize (IH (S i) st).
    destruct (poll w fd n (S i) st) as [st' tr]; simpl in *.
    constructor; [reflexivity | exact IH].
  - specialize (IH (S i) {| tsStart := monotonic_clock w i; tsEnd := tsEnd st;
                            triggered := true |}).
    destruct (poll w fd n (S i) _) as [st' tr]; simpl in *.
    repeat (constructor; [reflexivity |]). exact IH.
Qed.

Lemma reading_no_client_calls (w : SensorEnv) :
  no_client_calls (snd (GetUltrasonicReading w)).
Proof.
  unfold GetUltrasonicReading.
  destruct (open_output w <? 0); [repeat constructor |].
  destruct (open_input w <? 0); [repeat constructor |].
  pose proof (poll_no_client_calls w (open_input w) POLL_CEILING 0 poll_start) as P.
  destruct (poll w (open_input w) POLL_CEILING 0 poll_start) as [st tr].
  cbn [snd] in P.
  assert (no_client_calls
            ([GPIO_OpenAsOutput (open_output w); nanosleep 10000;
              GPIO_SetValue (open_output w) GPIO_Value_Low; close (open_output w)]
             ++ GPIO_OpenAsInput (open_input w) :: tr ++ [close (open_input w)])).
  { apply no_client_calls_app; [repeat constructor |].
    constructor; [reflexivity |].
    apply no_client_calls_app; [exact P | repeat constructor]. }
  destruct ((tv_sec (tsEnd st) =? 0) && (tv_nsec (tsEnd st) =? 0)); assumption.
Qed.

Lemma report_and_light_no_client_calls (occ : bool) (c : LedBlinkUtility_Colors)
  (rc : Z) (g : Globals) :
  no_client_calls (snd (report_and_light occ c rc g)).
Proof.
  unfold report_and_light, ReportStatusToIotHub.
  destruct (negb (Bool.eqb (occupiedState g) occ));
    [destruct (connectedToIoTHub (set_occupiedState occ g)) |];
    repeat constructor.
Qed.

Lemma handler_no_client_calls (t : TimerTick) (g : Globals) :
  no_client_calls (snd (UltrasonicTimerEventHandler t g)).
Proof.
  unfold UltrasonicTimerEventHandler.
  destruct (negb (consume_rc t =? 0)); [repeat constructor |].
  pose proof (reading_no_client_calls (sensor t)) as R.
  destruct (GetUltrasonicReading (sensor t)) as [cms measured].
  pose proof (report_and_light_no_client_calls (occupancy_of cms)
                (spec_color (spec_tier cms)) (traffic_led_rc t) g) as C.
  rewrite <- classify_and_report_tier in C.
  destruct (classify_and_report cms (traffic_led_rc t) g) as [g' tr].
  cbn [snd] in *.
  constructor; [reflexivity |].
  apply no_client_calls_app; assumption.
Qed.

Lemma wait_no_client_calls (e : IterEnv) (g : Globals) :
  no_client_calls (snd (WaitForEventAndCallHandler e g)).
Proof.
  unfold WaitForEventAndCallHandler.
  destruct (negb (wait_rc e =? 0)); [repeat constructor |].
  destruct (timer_ready e) as [t |]; [| repeat constructor].
  pose proof (handler_no_client_calls t g) as H.
  destruct (UltrasonicTimerEventHandler t g) as [g' tr]; cbn [snd] in *.
  constructor; [reflexivity | exact H].
Qed.

(** One pass whose network LED call fails: the body is left through
    [break]; no connection attempt, no maintenance. *)
Lemma loop_body_led_failure (e : IterEnv) (s : MainState) :
  net_led_rc e <> 0 ->
  snd (loop_body e s) = true /\
  next_iothub_connect (fst (fst (loop_body e s))) = next_iothub_connect s /\
  iothub_connected (fst (fst (loop_body e s))) = iothub_connected s /\
  existsb is_SetupClient (snd (fst (loop_body e s))) = false /\
  filter is_DoPeriodicTasks (snd (fst (loop_body e s))) = [].
Proof.
  intros Hrc. unfold loop_body.
  pose proof (wait_no_client_calls e
                (if sigterm e then TerminationHandler (globals s) else globals s)) as W.
  destruct (WaitForEventAndCallHandler e _) as [[rc g1] tr_wait]; cbn [snd] in W.
  apply Z.eqb_neq in Hrc. rewrite Hrc. cbn [negb fst snd].
  repeat split.
  - rewrite existsb_app.
    rewrite (proj1 (no_client_calls_filter _ W)). reflexivity.
  - rewrite filter_app.
    rewrite (proj2 (no_client_calls_filter _ W)). reflexivity.
Qed.

(** One pass whose network LED call succeeds. *)
Lemma loop_body_led_ok (e : IterEnv) (s : MainState) :
  net_led_rc e = 0 ->
  let attempt := TimerCompareGreater (now_gate e) (next_iothub_connect s) in
  let connected' := if attempt then setup_ok e else iothub_connected s in
  snd (loop_body e s) = false /\
  next_iothub_connect (fst (fst (loop_body e s))) =
    (if attempt then TimerAdd (now_after e) iothub_retry_period
     else next_iothub_connect s) /\
  iothub_connected (fst (fst (loop_body e s))) = connected' /\
  existsb is_SetupClient (snd (fst (loop_body e s))) = attempt /\
  List.length (filter is_SetupClient (snd (fst (loop_body e s)))) =
    (if attempt then 1%nat else 0%nat) /\
  filter is_DoPeriodicTasks (snd (fst (loop_body e s))) =
    (if connected' then [AzureIoT_DoPeriodicTasks] else []).
Proof.
  intros Hrc. cbv zeta. unfold loop_body.
  pose proof (wait_no_client_calls e
                (if sigterm e then TerminationHandler (globals s) else globals s)) as W.
  destruct (WaitForEventAndCallHandler e _) as [[rc g1] tr_wait]; cbn [snd] in W.
  rewrite Hrc. cbn [negb Z.eqb fst snd].
  destruct (no_client_calls_filter _ W) as [WS WD].
  assert (WC : filter is_SetupClient tr_wait = []).
  { clear WS WD. induction W as [| x l Hx _ IH]; [reflexivity |].
    unfold client_call in Hx. apply orb_false_iff in Hx as [H1 _].
    simpl. rewrite H1. exact IH. }
  rewrite existsb_app, !filter_app, WS, WD, WC.
  destruct (TimerCompareGreater (now_gate e) (next_iothub_connect s));
    [destruct (setup_ok e) | destruct (iothub_connected s)];
    repeat split.
Qed.

Lemma main_loop_stop (script : list IterEnv) (s : MainState) :
  terminationRequired (globals s) = true -> main_loop script s = ([], s, true).
Proof. intros H. destruct script; simpl; rewrite H; reflexivity. Qed.

Lemma main_loop_step (e : IterEnv) (rest : list IterEnv) (s : MainState) :
  terminationRequired (globals s) = false ->
  main_loop (e :: rest) s =
  if snd (loop_body e s)
  then ([log_of e s], fst (fst (loop_body e s)), true)
  else (log_of e s :: fst (fst (main_loop rest (fst (fst (loop_body e s))))),
        snd (fst (main_loop rest (fst (fst (loop_body e s))))),
        snd (main_loop rest (fst (fst (loop_body e s))))).
Proof.
  intros H. simpl. rewrite H. unfold log_of.
  destruct (loop_body e s) as [[s' tr] brk]. cbn [fst snd].
  destruct brk; [reflexivity |].
  destruct (main_loop rest s') as [[logs s''] exited]. reflexivity.
Qed.

(** Every recorded pass is a pass of the loop body, entered with
    [terminationRequired] false, on an entry of the script. *)
Lemma passes_sound (script : list IterEnv) (s : MainState) (l : IterLog) :
  In l (fst (fst (main_loop script s))) ->
  terminationRequired (globals (before l)) = false /\
  l = log_of (met l) (before l) /\
  In (met l) script.
Proof.
  revert s. induction script as [| e rest IH]; intros s Hin.
  - simpl in Hin. destruct (terminationRequired (globals s)); contradiction.
  - destruct (terminationRequired (globals s)) eqn:T.
    + rewrite main_loop_stop in Hin by exact T. contradiction.
    + rewrite main_loop_step in Hin by exact T.
      destruct (snd (loop_body e s)); cbn [fst snd] in Hin.
      * destruct Hin as [<- | []]. simpl. auto.
      * destruct Hin as [<- | Hin]; [simpl; auto |].
        destruct (IH _ Hin) as (A & B & C). auto with datatypes.
Qed.

(** A pass left through [break] is the last one, and the loop is left. *)
Lemma break_is_last (script : list IterEnv) (s : MainState)
  (pre post : list IterLog) (l : IterLog) :
  fst (fst (main_loop script s)) = pre ++ l :: post ->
  broke l = true ->
  post = [] /\ snd (main_loop script s) = true.
Proof.
  revert s pre. induction script as [| e rest IH]; intros s pre E B.
  - simpl in E. destruct (terminationRequired (globals s));
      destruct pre; discriminate.
  - destruct (terminationRequired (globals s)) eqn:T.
    + rewrite main_loop_stop in E by exact T. destruct pre; discriminate.
    + rewrite main_loop_step in E |- * by exact T.
      destruct (snd (loop_body e s)) eqn:Brk; cbn [fst snd] in E |- *.
      * destruct pre as [| x pre].
        -- injection E as _ E. auto.
        -- injection E as _ E. destruct pre; discriminate.
      * destruct pre as [| x pre].
        -- injection E as E _. subst l. simpl in B. congruence.
        -- injection E as _ E. exact (IH _ _ E B).
Qed.

Lemma clock_monotonic_entry (t : timespec) (script : list IterEnv) (e : IterEnv) :
  clock_monotonic t script -> In e script ->
  normalized (now_gate e) /\ normalized (now_after e) /\
  to_ns (now_gate e) <= to_ns (now_after e).
Proof.
  revert t. induction script as [| x rest IH]; intros t M Hin; [contradiction |].
  destruct M as (Ng & Na & _ & Le & M).
  destruct Hin as [-> | Hin]; [auto | exact (IH _ M Hin)].
Qed.

Lemma retry_period_normalized : normalized iothub_retry_period.
Proof. unfold normalized, NSEC_PER_SEC; simpl; lia. Qed.

Lemma to_ns_retry_period : to_ns iothub_retry_period = 1000000000.
Proof. reflexivity. Qed.

(** What a pass says about the connection attempt. *)
Lemma pass_attempt (e : IterEnv) (s : MainState) :
  let l := log_of e s in
  (attempted l = true <->
   broke l = false /\
   TimerCompareGreater (now_gate e) (next_iothub_connect s) = true) /\
  (attempted l = true ->
   next_iothub_connect (after l) = TimerAdd (now_after e) iothub_retry_period) /\
  (attempted l = false -> next_iothub_connect (after l) = next_iothub_connect s) /\
  (List.length (filter is_SetupClient (calls l)) <= 1)%nat.
Proof.
  cbv zeta. unfold attempted, log_of. cbn [calls broke after].
  destruct (Z.eq_dec (net_led_rc e) 0) as [Ok | Bad].
  - destruct (loop_body_led_ok e s Ok) as (B & N & _ & A & C & _).
    rewrite B, N, A, C.
    destruct (TimerCompareGreater (now_gate e) (next_iothub_connect s));
      repeat split; intros; try congruence; try tauto; lia.
  - destruct (loop_body_led_failure e s Bad) as (B & N & _ & A & _).
    rewrite B, N, A.
    assert (C : filter is_SetupClient (snd (fst (loop_body e s))) = []).
    { induction (snd (fst (loop_body e s))) as [| x tr IH]; [reflexivity |].
      simpl in A |- *. apply orb_false_iff in A as [A1 A2].
      rewrite A1. exact (IH A2). }
    rewrite C. simpl.
    repeat split; intros; try congruence; try tauto; try lia.
Qed.

Lemma pass_keeps_deadline_normalized (e : IterEnv) (s : MainState) :
  normalized (now_after e) -> normalized (next_iothub_connect s) ->
  normalized (next_iothub_connect (fst (fst (loop_body e s)))).
Proof.
  intros Na Ns.
  destruct (pass_attempt e s) as (_ & Att & NoAtt & _).
  cbv zeta in Att, NoAtt. cbn [log_of after] in Att, NoAtt.
  destruct (attempted (log_of e s)).
  - rewrite Att by reflexivity.
    apply TimerAdd_normalized; [exact Na | exact retry_period_normalized].
  - rewrite NoAtt by reflexivity. exact Ns.
Qed.

(** While the deadline is at least [b], every later attempt is gated by a
    clock reading above [b]. *)
Lemma attempts_after_deadline (script : list IterEnv) (s : MainState)
  (t : timespec) (b : Z) (l : IterLog) :
  clock_monotonic t script ->
  normalized (next_iothub_connect s) ->
  b <= to_ns (next_iothub_connect s) ->
  In l (fst (fst (main_loop script s))) ->
  attempted l = true ->
  b < to_ns (now_gate (met l)).
Proof.
  revert s t. induction script as [| e rest IH]; intros s t M Ns Hb Hin Att.
  - simpl in Hin. destruct (terminationRequired (globals s)); contradiction.
  - destruct (terminationRequired (globals s)) eqn:T.
    { rewrite main_loop_stop in Hin by exact T. contradiction. }
    rewrite main_loop_step in Hin by exact T.
    destruct M as (Ng & Na & _ & Le & M).
    destruct (pass_attempt e s) as (Gate & Reset & Keep & _).
    cbv zeta in Gate, Reset, Keep.
    assert (Head : attempted (log_of e s) = true ->
                   b < to_ns (now_gate e)).
    { intros A. apply Gate in A as [_ A].
      apply TimerCompareGreater_to_ns in A; [lia | exact Ng | exact Ns]. }
    destruct (snd (loop_body e s)); cbn [fst snd] in Hin.
    + destruct Hin as [<- | []]. exact (Head Att).
    + destruct Hin as [<- | Hin]; [exact (Head Att) |].
      apply (IH (fst (fst (loop_body e s))) (now_after e)); try assumption.
      * apply pass_keeps_deadline_normalized; assumption.
      * cbn [log_of after] in Reset, Keep.
        destruct (attempted (log_of e s)) eqn:A.
        -- rewrite Reset by reflexivity. rewrite TimerAdd_to_ns, to_ns_retry_period.
           specialize (Head eq_refl). lia.
        -- rewrite Keep by reflexivity. exact Hb.
Qed.

(** Two attempts of one run: the later one is gated by a clock reading
    more than one retry period after the reading taken right after the
    earlier one. *)
Lemma attempts_apart (script : list IterEnv) (s : MainState) (t : timespec)
  (pre mid post : list IterLog) (l1 l2 : IterLog) :
  clock_monotonic t script ->
  normalized (next_iothub_connect s) ->
  fst (fst (main_loop script s)) = pre ++ l1 :: mid ++ l2 :: post ->
  attempted l1 = true -> attempted l2 = true ->
  to_ns (now_after (met l1)) + 1000000000 < to_ns (now_gate (met l2)).
Proof.
  revert s t pre. induction script as [| e rest IH]; intros s t pre M Ns E A1 A2.
  - simpl in E. destruct (terminationRequired (globals s));
      destruct pre; discriminate.
  - destruct (terminationRequired (globals s)) eqn:T.
    { rewrite main_loop_stop in E by exact T. destruct pre; discriminate. }
    rewrite main_loop_step in E by exact T.
    destruct M as (Ng & Na & _ & Le & M).
    pose proof (pass_keeps_deadline_normalized e s Na Ns) as Ns'.
    destruct (snd (loop_body e s)); cbn [fst snd] in E.
    + destruct pre as [| x pre]; [destruct mid; discriminate |].
      injection E as _ E. destruct pre; discriminate.
    + destruct pre as [| x pre].
      * injection E as E1 E. subst l1. cbn [log_of met].
        destruct (pass_attempt e s) as (_ & Reset & _).
        cbv zeta in Reset. cbn [log_of after] in Reset.
        specialize (Reset A1).
        apply (attempts_after_deadline rest (fst (fst (loop_body e s)))
                 (now_after e) _ l2 M Ns').
        -- rewrite Reset, TimerAdd_to_ns, to_ns_retry_period. lia.
        -- rewrite E. apply in_or_app. right. left. reflexivity.
        -- exact A2.
      * injection E as _ E.
        exact (IH _ (now_after e) pre M Ns' E A1 A2).
Qed.

Lemma main_unfold (p : ProcessEnv) :
  passes (main p) = fst (fst (main_loop (script p) (initial_state p))) /\
  loop_left (main p) = snd (main_loop (script p) (initial_state p)) /\
  final (main p) = snd (fst (main_loop (script p) (initial_state p))) /\
  init_rc (main p) = fst (fst (InitPeripheralsAndHandlers (startup p) process_start)) /\
  shutdown_calls (main p) =
    (if loop_left (main p)
     then ClosePeripheralsAndHandlers (close_led_rc p) (globals (final (main p)))
          ++ [Log_Debug "Application exiting\n"]
     else []).
Proof.
  unfold main, initial_state.
  destruct (InitPeripheralsAndHandlers (startup p) process_start) as [[rc g] tr].
  destruct (main_loop (script p) _) as [[logs s] exited].
  repeat split.
Qed.

Lemma initial_deadline (p : ProcessEnv) :
  next_iothub_connect (initial_state p) = now_start p /\
  iothub_connected (initial_state p) = false.
Proof.
  unfold initial_state.
  destruct (InitPeripheralsAndHandlers (startup p) process_start) as [[rc g] tr].
  split; reflexivity.
Qed.

(** C5: in every pass of the main loop a connection attempt (the client
    set-up call) is made only when the monotonic time read in that pass
    exceeds the stored retry deadline; right after any attempt, whatever
    its result, the deadline is the time read after the attempt plus the
    retry period of one second; so two attempts of a run are more than
    one retry period apart. *)
Theorem C5_retry_backoff (p : ProcessEnv)
  (Hstart : normalized (now_start p))
  (Hclock : clock_monotonic (now_start p) (script p)) :
  (forall l, In l (passes (main p)) ->
     (attempted l = true <->
      broke l = false /\
      TimerCompareGreater (now_gate (met l)) (next_iothub_connect (before l)) = true) /\
     (attempted l = true ->
      next_iothub_connect (after l) =
      TimerAdd (now_after (met l)) iothub_retry_period) /\
     (attempted l = false ->
      next_iothub_connect (after l) = next_iothub_connect (before l)) /\
     (List.length (filter is_SetupClient (calls l)) <= 1)%nat) /\
  (forall pre l1 mid l2 post,
     passes (main p) = pre ++ l1 :: mid ++ l2 :: post ->
     attempted l1 = true -> attempted l2 = true ->
     TimerCompareGreater (now_gate (met l2))
       (TimerAdd (now_after (met l1)) iothub_retry_period) = true /\
     TimerCompareGreater (now_gate (met l2))
       (TimerAdd (now_gate (met l1)) iothub_retry_period) = true) /\
  iothub_retry_period = {| tv_sec := 1; tv_nsec := 0 |}.
Proof.
  destruct (main_unfold p) as (P & _).
  destruct (initial_deadline p) as (N0 & _).
  split; [| split; [| reflexivity]].
  - intros l Hin. rewrite P in Hin.
    destruct (passes_sound _ _ _ Hin) as (_ & E & _).
    pose proof (pass_attempt (met l) (before l)) as H. cbv zeta in H.
    rewrite <- E in H. exact H.
  - intros pre l1 mid l2 post E A1 A2.
    rewrite P in E.
    assert (In1 : In l1 (fst (fst (main_loop (script p) (initial_state p)))))
      by (rewrite E; apply in_or_app; right; left; reflexivity).
    assert (In2 : In l2 (fst (fst (main_loop (script p) (initial_state p)))))
      by (rewrite E; apply in_or_app; right; right;
          apply in_or_app; right; left; reflexivity).
    destruct (passes_sound _ _ _ In1) as (_ & _ & S1).
    destruct (passes_sound _ _ _ In2) as (_ & _ & S2).
    destruct (clock_monotonic_entry _ _ _ Hclock S1) as (Ng1 & Na1 & Le1).
    destruct (clock_monotonic_entry _ _ _ Hclock S2) as (Ng2 & _ & _).
    assert (Ns : normalized (next_iothub_connect (initial_state p)))
      by (rewrite N0; exact Hstart).
    pose proof (attempts_apart _ _ _ _ _ _ _ _ Hclock Ns E A1 A2) as Apart.
    split; apply TimerCompareGreater_to_ns;
      try exact Ng2;
      try (apply TimerAdd_normalized; [assumption | exact retry_period_normalized]);
      rewrite TimerAdd_to_ns, to_ns_retry_period; lia.
Qed.

Lemma run_setup_then_failure_clock :
  normalized (now_start run_setup_then_failure) /\
  clock_monotonic (now_start run_setup_then_failure) (script run_setup_then_failure).
Proof.
  unfold normalized, NSEC_PER_SEC, to_ns. simpl.
  unfold normalized, NSEC_PER_SEC, to_ns. simpl. lia.
Defined.

Lemma C5_retry_backoff_witness :
  normalized (now_start run_setup_then_failure) /\
  clock_monotonic (now_start run_setup_then_failure) (script run_setup_then_failure) /\
  map attempted (passes (main run_setup_then_failure)) = [true; false; true] /\
  TimerCompareGreater (at_ms 11700) (TimerAdd (at_ms 10520) iothub_retry_period) = true.
Proof.
  destruct run_setup_then_failure_clock as [Hs Hc].
  split; [exact Hs |]. split; [exact Hc |].
  split; [vm_compute; reflexivity |].
  pose proof (C5_retry_backoff run_setup_then_failure Hs Hc) as (_ & Apart & _).
  set (s0 := initial_state run_setup_then_failure).
  set (l1 := log_of (idle_pass 10500 true (Some true)) s0).
  set (l2 := log_of (idle_pass 11000 true None) (after l1)).
  set (l3 := log_of (idle_pass 11700 false None) (after l2)).
  assert (E : passes (main run_setup_then_failure) = [] ++ l1 :: [l2] ++ l3 :: [])
    by (vm_compute; reflexivity).
  assert (A1 : attempted l1 = true) by (vm_compute; reflexivity).
  assert (A3 : attempted l3 = true) by (vm_compute; reflexivity).
  exact (proj1 (Apart [] l1 [l2] l3 [] E A1 A3)).
Defined.

(** What a pass says about the maintenance call. *)
Lemma pass_maintenance (e : IterEnv) (s : MainState) :
  let l := log_of e s in
  (broke l = false ->
   maintenance_calls l = (if iothub_connected (after l) then 1%nat else 0%nat) /\
   iothub_connected (after l) =
     (if attempted l then setup_ok e else iothub_connected s)) /\
  (broke l = true -> maintenance_calls l = 0%nat).
Proof.
  cbv zeta. unfold maintenance_calls, attempted, log_of. cbn [calls broke after].
  destruct (Z.eq_dec (net_led_rc e) 0) as [Ok | Bad].
  - destruct (loop_body_led_ok e s Ok) as (B & _ & C & A & _ & D).
    cbv zeta in C, D. rewrite B, C, A, D.
    split; [intros _ | discriminate].
    destruct (TimerCompareGreater (now_gate e) (next_iothub_connect s));
      [destruct (setup_ok e) | destruct (iothub_connected s)]; split; reflexivity.
  - destruct (loop_body_led_failure e s Bad) as (B & _ & _ & _ & D).
    rewrite B, D. split; [discriminate | reflexivity].
Qed.


(** ** Start-up *)

(** A failed construction of the wait primitive is reported and aborts
    set-up: the loop is not entered and the shut-down calls are made. *)
Lemma epoll_failure_aborts (p : ProcessEnv) :
  epoll_fd (startup p) < 0 ->
  init_rc (main p) = -1 /\ passes (main p) = [] /\ loop_left (main p) = true /\
  shutdown_calls (main p) =
    ClosePeripheralsAndHandlers (close_led_rc p) (globals (final (main p)))
    ++ [Log_Debug "Application exiting\n"].
Proof.
  intros H. apply Z.ltb_lt in H.
  unfold main, InitPeripheralsAndHandlers. simpl. rewrite H. simpl.
  rewrite main_loop_stop by reflexivity.
  repeat split.
Qed.

(** C7 holds for the wait primitive and fails for the timer: when
    [CreateTimerFdAndAddToEpoll] fails (after the wait primitive and the
    client were set up), [InitPeripheralsAndHandlers] still returns 0,
    [terminationRequired] stays false and the main loop is entered. *)
Theorem C7_timer_failure_not_reported (p : ProcessEnv)
  (Hepoll : 0 <= epoll_fd (startup p))
  (Hazure : azure_init_ok (startup p) = true)
  (Htimer : timer_fd (startup p) < 0) :
  init_rc (main p) = 0 /\
  usTimerFd (globals (initial_state p)) = timer_fd (startup p) /\
  terminationRequired (globals (initial_state p)) = false /\
  (forall e rest, script p = e :: rest ->
     exists logs, passes (main p) = log_of e (initial_state p) :: logs).
Proof.
  destruct (main_unfold p) as (P & _ & _ & R & _).
  rewrite P, R. clear P R.
  unfold initial_state, InitPeripheralsAndHandlers. simpl.
  apply Z.ltb_ge in Hepoll. rewrite Hepoll, Hazure. simpl.
  repeat split.
  intros e rest E. rewrite E.
  rewrite main_loop_step by reflexivity.
  destruct (snd (loop_body e _)); cbn [fst]; eexists; reflexivity.
Qed.

Lemma C7_timer_failure_not_reported_witness :
  0 <= epoll_fd (startup run_no_timer) /\
  azure_init_ok (startup run_no_timer) = true /\
  timer_fd (startup run_no_timer) < 0 /\
  init_rc (main run_no_timer) = 0 /\
  List.length (passes (main run_no_timer)) = 1%nat /\
  init_rc (main run_no_epoll) = -1 /\
  passes (main run_no_epoll) = [].
Proof.
  assert (He : 0 <= epoll_fd (startup run_no_timer)) by (simpl; lia).
  assert (Ha : azure_init_ok (startup run_no_timer) = true) by reflexivity.
  assert (Ht : timer_fd (startup run_no_timer) < 0) by (simpl; lia).
  destruct (C7_timer_failure_not_reported run_no_timer He Ha Ht) as (Rc & _).
  split; [exact He |]. split; [exact Ha |]. split; [exact Ht |].
  split; [exact Rc |].
  repeat split; vm_compute; reflexivity.
Defined.

(** ** Indicator failures *)

(** C8, as stated, fails: the set-colour call on the traffic indicator
    returns an error in the first pass of this run; the pass runs to its
    end, a second pass follows, the loop is not left and no shut-down
    call is made. *)
Lemma C8_any_indicator_failure_fatal_counterexample :
  let run := main run_traffic_led_failure in
  (exists l rest, passes run = l :: rest /\
     In (LedBlinkUtility_SetLed ledTraffic LedBlinkUtility_Colors_Yellow (-1))
        (calls l) /\
     broke l = false /\
     terminationRequired (globals (after l)) = false) /\
  List.length (passes run) = 2%nat /\
  loop_left run = false /\
  shutdown_calls run = [].
Proof.
  cbv zeta.
  split; [| repeat split; vm_compute; reflexivity].
  set (l1 := log_of (timer_pass 10500
                       {| consume_rc := 0; sensor := echo_290us; traffic_led_rc := -1 |})
               (initial_state run_traffic_led_failure)).
  exists l1, [log_of (idle_pass 11000 true None) (after l1)].
  split; [vm_compute; reflexivity |].
  split; [| split; vm_compute; reflexivity].
  assert (F : filter (fun e => match e with
                               | LedBlinkUtility_SetLed ledTraffic _ _ => true
                               | _ => false end) (calls l1) =
              [LedBlinkUtility_SetLed ledTraffic LedBlinkUtility_Colors_Yellow (-1)])
    by (vm_compute; reflexivity).
  assert (I : In (LedBlinkUtility_SetLed ledTraffic LedBlinkUtility_Colors_Yellow (-1))
                (filter (fun e => match e with
                                  | LedBlinkUtility_SetLed ledTraffic _ _ => true
                                  | _ => false end) (calls l1)))
    by (rewrite F; left; reflexivity).
  apply filter_In in I. exact (proj1 I).
Qed.

(** The handler does not look at what the traffic LED call returns. *)
Lemma handler_ignores_traffic_led (t : TimerTick) (rc : Z) (g : Globals) :
  fst (UltrasonicTimerEventHandler
         {| consume_rc := consume_rc t; sensor := sensor t; traffic_led_rc := rc |} g)
  = fst (UltrasonicTimerEventHandler t g).
Proof.
  unfold UltrasonicTimerEventHandler. cbn [consume_rc sensor traffic_led_rc].
  destruct (negb (consume_rc t =? 0)); [reflexivity |].
  destruct (GetUltrasonicReading (sensor t)) as [cms measured].
  destruct (classify_and_report_effect cms rc g) as (S1 & _).
  destruct (classify_and_report_effect cms (traffic_led_rc t) g) as (S2 & _).
  destruct (classify_and_report cms rc g) as [g1 tr1].
  destruct (classify_and_report cms (traffic_led_rc t) g) as [g2 tr2].
  cbn [fst] in *. congruence.
Qed.

(** C8, amended: a failure of the set-colour call on the network
    indicator is fatal for the main loop: the pass in which it returns an
    error is left through [break], it is the last pass, and the shut-down
    calls are made.  What the set-colour call on the traffic indicator
    returns is not looked at: the handler leaves the same state behind
    whatever it is. *)
Theorem C8_network_indicator_failure_fatal (p : ProcessEnv) (l : IterLog)
  (Hpass : In l (passes (main p)))
  (Hfail : net_led_rc (met l) <> 0) :
  broke l = true /\
  (exists pre, passes (main p) = pre ++ [l]) /\
  loop_left (main p) = true /\
  shutdown_calls (main p) =
    ClosePeripheralsAndHandlers (close_led_rc p) (globals (final (main p)))
    ++ [Log_Debug "Application exiting\n"] /\
  (forall (t : TimerTick) (rc : Z) (g : Globals),
     fst (UltrasonicTimerEventHandler
            {| consume_rc := consume_rc t; sensor := sensor t; traffic_led_rc := rc |} g)
     = fst (UltrasonicTimerEventHandler t g)).
Proof.
  destruct (main_unfold p) as (P & L & _ & _ & S).
  rewrite P in Hpass.
  destruct (passes_sound _ _ _ Hpass) as (_ & E & _).
  assert (B : broke l = true).
  { rewrite E. cbn [log_of broke].
    exact (proj1 (loop_body_led_failure (met l) (before l) Hfail)). }
  destruct (in_split _ _ Hpass) as (pre & post & Split).
  destruct (break_is_last _ _ _ _ _ Split B) as (Last & Left).
  subst post.
  assert (LL : loop_left (main p) = true) by (rewrite L; exact Left).
  split; [exact B |].
  split; [exists pre; rewrite P; exact Split |].
  split; [exact LL |].
  split; [rewrite S, LL; reflexivity |].
  exact handler_ignores_traffic_led.
Qed.

Lemma C8_network_indicator_failure_fatal_witness :
  let l1 := log_of (idle_pass 10500 true (Some true))
              (initial_state run_network_led_failure) in
  let l2 := log_of (nth 1 (script run_network_led_failure) (idle_pass 0 true None))
              (after l1) in
  In l2 (passes (main run_network_led_failure)) /\
  net_led_rc (met l2) <> 0 /\
  passes (main run_network_led_failure) = [l1; l2] /\
  loop_left (main run_network_led_failure) = true /\
  colors_set ledTraffic (shutdown_calls (main run_network_led_failure))
  = [LedBlinkUtility_Colors_Off].
Proof.
  cbv zeta.
  set (l1 := log_of (idle_pass 10500 true (Some true))
               (initial_state run_network_led_failure)).
  set (l2 := log_of (nth 1 (script run_network_led_failure) (idle_pass 0 true None))
               (after l1)).
  assert (E : passes (main run_network_led_failure) = [l1; l2])
    by (vm_compute; reflexivity).
  assert (Hin : In l2 (passes (main run_network_led_failure)))
    by (rewrite E; right; left; reflexivity).
  assert (Hrc : net_led_rc (met l2) <> 0) by (simpl; lia).
  destruct (C8_network_indicator_failure_fatal run_network_led_failure l2 Hin Hrc)
    as (_ & _ & Left & Shut & _).
  split; [exact Hin |]. split; [exact Hrc |]. split; [exact E |].
  split; [exact Left |].
  rewrite Shut. reflexivity.
Defined.

(** * Further properties of main.c *)

(** ** [TimerUtility_TimerSubtract] *)

(** X1: where no step of the C arithmetic overflows (normalized
    operands whose seconds and difference of seconds lie in [-M, M], [M]
    the largest value of a type of at least 32 bits),
    [TimerUtility_TimerSubtract] is exact: in nanoseconds its result is
    the difference of its operands, and the seconds of the result are
    non-negative exactly when the first operand is not earlier than the
    second. *)
Theorem X1_subtract_exact (M : Z) (s t : timespec) :
  INT32_MAX <= M ->
  - M <= tv_sec s <= M -> - M <= tv_sec t <= M ->
  - M <= tv_sec s - tv_sec t <= M ->
  normalized s -> normalized t ->
  (- M - 1 <= tv_sec s - tv_sec t <= M /\
   - M - 1 <= tv_nsec s - tv_nsec t <= M /\
   - M - 1 <= tv_sec (TimerSubtract s t) <= M /\
   - M - 1 <= tv_nsec (TimerSubtract s t) <= M) /\
  to_ns (TimerSubtract s t) = to_ns s - to_ns t /\
  (0 <= tv_sec (TimerSubtract s t) <-> to_ns t <= to_ns s).
Proof.
  intros HM Hs Ht Hd Ns Nt.
  split; [exact (proj1 (subtract_add_steps_in_range M s t HM Hs Ht Hd Ns Nt)) |].
  split; [apply TimerSubtract_to_ns |].
  pose proof (TimerSubtract_nsec_range s t Ns Nt) as Nr.
  pose proof (TimerSubtract_to_ns s t) as E.
  unfold normalized, NSEC_PER_SEC in Nr. unfold to_ns, NSEC_PER_SEC in *.
  split; intros H; nia.
Qed.

Lemma X1_subtract_exact_witness :
  let s := {| tv_sec := 3; tv_nsec := 5 |} in
  let t := {| tv_sec := 4; tv_nsec := 2 |} in
  INT32_MAX <= INT32_MAX /\
  - INT32_MAX <= tv_sec s <= INT32_MAX /\ - INT32_MAX <= tv_sec t <= INT32_MAX /\
  - INT32_MAX <= tv_sec s - tv_sec t <= INT32_MAX /\
  normalized s /\ normalized t /\
  TimerSubtract s t = {| tv_sec := -1; tv_nsec := 3 |} /\
  to_ns (TimerSubtract s t) = to_ns s - to_ns t /\
  (0 <= tv_sec (TimerSubtract s t) <-> to_ns t <= to_ns s).
Proof.
  cbv zeta.
  assert (HM : INT32_MAX <= INT32_MAX) by lia.
  assert (Hs : - INT32_MAX <= tv_sec {| tv_sec := 3; tv_nsec := 5 |} <= INT32_MAX)
    by (unfold INT32_MAX; simpl; lia).
  assert (Ht : - INT32_MAX <= tv_sec {| tv_sec := 4; tv_nsec := 2 |} <= INT32_MAX)
    by (unfold INT32_MAX; simpl; lia).
  assert (Hd : - INT32_MAX
               <= tv_sec {| tv_sec := 3; tv_nsec := 5 |}
                  - tv_sec {| tv_sec := 4; tv_nsec := 2 |}
               <= INT32_MAX)
    by (unfold INT32_MAX; simpl; lia).
  assert (Ns : normalized {| tv_sec := 3; tv_nsec := 5 |})
    by (unfold normalized, NSEC_PER_SEC; simpl; lia).
  assert (Nt : normalized {| tv_sec := 4; tv_nsec := 2 |})
    by (unfold normalized, NSEC_PER_SEC; simpl; lia).
  destruct (X1_subtract_exact INT32_MAX _ _ HM Hs Ht Hd Ns Nt) as (_ & E & Sg).
  split; [exact HM |]. split; [exact Hs |]. split; [exact Ht |].
  split; [exact Hd |]. split; [exact Ns |]. split; [exact Nt |].
  split; [reflexivity |]. split; [exact E | exact Sg].
Defined.

(** X2: on normalized, non-negative 32-bit clock readings neither
    intermediate difference nor the result of
    [TimerUtility_TimerSubtract] leaves the 32-bit signed range, so the C
    code has no signed overflow there. *)
Theorem X2_subtract_no_overflow (s t : timespec) :
  0 <= tv_sec s <= INT32_MAX -> 0 <= tv_sec t <= INT32_MAX ->
  normalized s -> normalized t ->
  (- INT32_MAX - 1 <= tv_sec s - tv_sec t <= INT32_MAX) /\
  (- INT32_MAX - 1 <= tv_nsec s - tv_nsec t <= INT32_MAX) /\
  (- INT32_MAX - 1 <= tv_sec (TimerSubtract s t) <= INT32_MAX) /\
  (- INT32_MAX - 1 <= tv_nsec (TimerSubtract s t) <= INT32_MAX).
Proof.
  intros Hs Ht Ns Nt.
  apply sub_in_range; try assumption.
  unfold NSEC_PER_SEC, INT32_MAX. lia.
Qed.

Lemma X2_subtract_no_overflow_witness :
  let s := {| tv_sec := 0; tv_nsec := 0 |} in
  let t := {| tv_sec := 2147483647; tv_nsec := 999999999 |} in
  0 <= tv_sec s <= INT32_MAX /\ 0 <= tv_sec t <= INT32_MAX /\
  normalized s /\ normalized t /\
  TimerSubtract s t = {| tv_sec := -2147483648; tv_nsec := 1 |} /\
  - INT32_MAX - 1 <= tv_sec (TimerSubtract s t) <= INT32_MAX.
Proof.
  cbv zeta.
  assert (Hs : 0 <= tv_sec {| tv_sec := 0; tv_nsec := 0 |} <= INT32_MAX)
    by (unfold INT32_MAX; simpl; lia).
  assert (Ht : 0 <= tv_sec {| tv_sec := 2147483647; tv_nsec := 999999999 |}
               <= INT32_MAX)
    by (unfold INT32_MAX; simpl; lia).
  assert (Ns : normalized {| tv_sec := 0; tv_nsec := 0 |})
    by (unfold normalized, NSEC_PER_SEC; simpl; lia).
  assert (Nt : normalized {| tv_sec := 2147483647; tv_nsec := 999999999 |})
    by (unfold normalized, NSEC_PER_SEC; simpl; lia).
  destruct (X2_subtract_no_overflow _ _ Hs Ht Ns Nt) as (_ & _ & R & _).
  split; [exact Hs |]. split; [exact Ht |]. split; [exact Ns |].
  split; [exact Nt |]. split; [reflexivity | exact R].
Defined.

(** ** [GetUltrasonicReading] *)

Lemma zero_test_false (t : timespec) :
  t <> zero_timespec -> (tv_sec t =? 0) && (tv_nsec t =? 0) = false.
Proof.
  intros H. apply not_true_iff_false. intros E. apply H. apply zero_test. exact E.
Qed.

(** The quotient the measurement divides out, before it is rounded to
    [float]: the sub-second width over 58000. *)
Lemma reading_of_width (w : SensorEnv) (i j : nat) :
  measured_pulse w i j ->
  fst (GetUltrasonicReading w) = subsecond_width w i j # 58000 /\
  0 <= subsecond_width w i j < 1000000000.
Proof.
  intros (Ho & Hi & R & F & Ni & Nj & NZ).
  rewrite (reading_edge_pair w i j Ho Hi R F), (zero_test_false _ NZ).
  pose proof (TimerSubtract_nsec_range _ _ Nj Ni) as Nr.
  unfold normalized, NSEC_PER_SEC in Nr.
  assert (E : tv_nsec (TimerSubtract (monotonic_clock w j) (monotonic_clock w i)) =
              subsecond_width w i j).
  { unfold subsecond_width, TimerSubtract, NSEC_PER_SEC in *.
    cbn [tv_nsec tv_sec] in *.
    destruct (tv_nsec (monotonic_clock w j) - tv_nsec (monotonic_clock w i) <? 0);
      cbn [tv_nsec] in *.
    - apply Z.mod_unique with (q := -1); [left; exact Nr | lia].
    - apply Z.mod_unique with (q := 0); [left; exact Nr | lia]. }
  rewrite <- E. split; [reflexivity | exact Nr].
Qed.

(** X3: the whole seconds of the pulse width are dropped.  Two
    measurements that see both edges (the clock normalized and not
    reading zero at the falling edge) return the same value whenever the
    differences of the [tv_nsec] fields of their two clock readings agree
    modulo 1e9, whatever the [tv_sec] fields are; and the value returned
    for such a measurement lies in [0, 17242). *)
Theorem X3_whole_seconds_dropped (w1 w2 : SensorEnv) (i1 j1 i2 j2 : nat) :
  measured_pulse w1 i1 j1 -> measured_pulse w2 i2 j2 ->
  subsecond_width w1 i1 j1 = subsecond_width w2 i2 j2 ->
  fst (GetUltrasonicReading w1) = fst (GetUltrasonicReading w2) /\
  (0 <= fst (GetUltrasonicReading w1))%Q /\
  (fst (GetUltrasonicReading w1) < 17242)%Q.
Proof.
  intros P1 P2 E.
  destruct (reading_of_width w1 i1 j1 P1) as (R1 & B1).
  destruct (reading_of_width w2 i2 j2 P2) as (R2 & _).
  rewrite R1, R2, E.
  split; [reflexivity |].
  rewrite <- E. unfold Qle, Qlt; simpl. lia.
Qed.

Lemma pulse_edges (first last : nat) (t_rise t_fall : timespec) :
  (first < last < POLL_CEILING)%nat ->
  rising_at (pulse first last t_rise t_fall) first /\
  falling_at (pulse first last t_rise t_fall) first last.
Proof.
  intros H. unfold rising_at, falling_at, pulse. cbn [pin_level].
  repeat split; try lia.
  - replace (first <=? first)%nat with true by (symmetry; apply Nat.leb_le; lia).
    replace (first <? last)%nat with true by (symmetry; apply Nat.ltb_lt; lia).
    reflexivity.
  - intros k Hk.
    replace (first <=? k)%nat with false by (symmetry; apply Nat.leb_gt; lia).
    reflexivity.
  - replace (last <? last)%nat with false by (symmetry; apply Nat.ltb_ge; lia).
    rewrite andb_false_r. reflexivity.
  - intros k Hk.
    replace (first <=? k)%nat with true by (symmetry; apply Nat.leb_le; lia).
    replace (k <? last)%nat with true by (symmetry; apply Nat.ltb_lt; lia).
    reflexivity.
Qed.

Lemma echo_290us_edges : rising_at echo_290us 2 /\ falling_at echo_290us 2 9.
Proof.
  apply pulse_edges. unfold POLL_CEILING.
  split; apply Nat.ltb_lt; vm_compute; reflexivity.
Defined.

Lemma echo_290us_measured : measured_pulse echo_290us 2 9.
Proof.
  destruct echo_290us_edges as [R F].
  unfold measured_pulse.
  split; [simpl; lia |]. split; [simpl; lia |].
  split; [exact R |]. split; [exact F |].
  split; [unfold normalized, NSEC_PER_SEC; simpl; lia |].
  split; [unfold normalized, NSEC_PER_SEC; simpl; lia |].
  simpl; discriminate.
Defined.

Lemma echo_2s_290us_measured : measured_pulse echo_2s_290us 2 9.
Proof.
  assert (E : rising_at echo_2s_290us 2 /\ falling_at echo_2s_290us 2 9).
  { apply pulse_edges. unfold POLL_CEILING.
    split; apply Nat.ltb_lt; vm_compute; reflexivity. }
  destruct E as [R F].
  unfold measured_pulse.
  split; [simpl; lia |]. split; [simpl; lia |].
  split; [exact R |]. split; [exact F |].
  split; [unfold normalized, NSEC_PER_SEC; simpl; lia |].
  split; [unfold normalized, NSEC_PER_SEC; simpl; lia |].
  simpl; discriminate.
Defined.

Lemma X3_whole_seconds_dropped_witness :
  measured_pulse echo_290us 2 9 /\ measured_pulse echo_2s_290us 2 9 /\
  subsecond_width echo_290us 2 9 = subsecond_width echo_2s_290us 2 9 /\
  to_ns (TimerSubtract (monotonic_clock echo_290us 9) (monotonic_clock echo_290us 2))
  = 290000 /\
  to_ns (TimerSubtract (monotonic_clock echo_2s_290us 9)
           (monotonic_clock echo_2s_290us 2))
  = 2000290000 /\
  fst (GetUltrasonicReading echo_290us) = fst (GetUltrasonicReading echo_2s_290us).
Proof.
  assert (E : subsecond_width echo_290us 2 9 = subsecond_width echo_2s_290us 2 9)
    by reflexivity.
  destruct (X3_whole_seconds_dropped _ _ _ _ _ _
              echo_290us_measured echo_2s_290us_measured E) as (R & _).
  split; [exact echo_290us_measured |]. split; [exact echo_2s_290us_measured |].
  split; [exact E |]. split; [reflexivity |]. split; [reflexivity | exact R].
Defined.

Section PollCalls.

Variable w : SensorEnv.
Variable fd : Z.

Lemma poll_calls_bound (n i : nat) (st : PollState) :
  (GetValue_calls (snd (poll w fd n i st)) <= n)%nat.
Proof.
  unfold GetValue_calls.
  revert i st. induction n as [| n IH]; intros i st; simpl; [lia |].
  destruct (pin_level w i), (triggered st).
  - simpl. lia.
  - specialize (IH (S i) st).
    destruct (poll w fd n (S i) st) as [st' tr]; simpl in *. lia.
  - specialize (IH (S i) st).
    destruct (poll w fd n (S i) st) as [st' tr]; simpl in *. lia.
  - specialize (IH (S i) {| tsStart := monotonic_clock w i; tsEnd := tsEnd st;
                            triggered := true |}).
    destruct (poll w fd n (S i) _) as [st' tr]; simpl in *. lia.
Qed.

Lemma poll_calls_untriggered_low (n i : nat) (st : PollState) :
  triggered st = false ->
  (forall k, (i <= k < i + n)%nat -> pin_level w k = GPIO_Value_Low) ->
  GetValue_calls (snd (poll w fd n i st)) = n.
Proof.
  unfold GetValue_calls.
  revert i. induction n as [| n IH]; intros i Ht Low; simpl; [reflexivity |].
  rewrite (Low i) by lia. rewrite Ht.
  specialize (IH (S i) Ht).
  destruct (poll w fd n (S i) st) as [st' tr]; simpl in *.
  f_equal. apply IH. intros k Hk. apply Low. lia.
Qed.

Lemma poll_calls_triggered_high (n i : nat) (st : PollState) :
  triggered st = true ->
  (forall k, (i <= k < i + n)%nat -> pin_level w k = GPIO_Value_High) ->
  GetValue_calls (snd (poll w fd n i st)) = n.
Proof.
  unfold GetValue_calls.
  revert i. induction n as [| n IH]; intros i Ht High; simpl; [reflexivity |].
  rewrite (High i) by lia. rewrite Ht.
  specialize (IH (S i) Ht).
  destruct (poll w fd n (S i) st) as [st' tr]; simpl in *.
  f_equal. apply IH. intros k Hk. apply High. lia.
Qed.

Lemma poll_calls_triggered_falls (n i j : nat) (st : PollState) :
  triggered st = true ->
  (i <= j < i + n)%nat ->
  (forall k, (i <= k < j)%nat -> pin_level w k = GPIO_Value_High) ->
  pin_level w j = GPIO_Value_Low ->
  GetValue_calls (snd (poll w fd n i st)) = S (j - i).
Proof.
  unfold GetValue_calls.
  revert i. induction n as [| n IH]; intros i Ht Hj High Lowj; [lia |].
  simpl.
  destruct (Nat.eq_dec i j) as [-> | Hne].
  - rewrite Lowj, Ht. simpl. f_equal. lia.
  - rewrite (High i) by lia. rewrite Ht.
    specialize (IH (S i) Ht).
    destruct (poll w fd n (S i) st) as [st' tr]; simpl in *.
    rewrite IH; [lia | lia | | exact Lowj].
    intros k Hk. apply High. lia.
Qed.

Lemma poll_calls_untriggered_rises (n i r : nat) (st : PollState) :
  triggered st = false ->
  (i <= r < i + n)%nat ->
  (forall k, (i <= k < r)%nat -> pin_level w k = GPIO_Value_Low) ->
  pin_level w r = GPIO_Value_High ->
  GetValue_calls (snd (poll w fd n i st)) =
  (S (r - i) +
   GetValue_calls
     (snd (poll w fd (i + n - S r) (S r)
             {| tsStart := monotonic_clock w r; tsEnd := tsEnd st;
                triggered := true |})))%nat.
Proof.
  unfold GetValue_calls.
  revert i. induction n as [| n IH]; intros i Ht Hr Low Highr; [lia |].
  simpl poll at 1.
  destruct (Nat.eq_dec i r) as [-> | Hne].
  - rewrite Highr, Ht.
    replace (r + S n - S r)%nat with n by lia.
    destruct (poll w fd n (S r) _) as [st' tr]. simpl.
    replace (r - r)%nat with 0%nat by lia. reflexivity.
  - rewrite (Low i) by lia. rewrite Ht.
    specialize (IH (S i) Ht).
    replace (i + S n - S r)%nat with (S i + n - S r)%nat by lia.
    destruct (poll w fd n (S i) st) as [st' tr]; simpl snd in *.
    simpl filter. simpl List.length.
    rewrite IH; [lia | lia | | exact Highr].
    intros k Hk. apply Low. lia.
Qed.

(** The three ways the levels of one measurement can go. *)
Lemma level_cases :
  (forall k, (k < POLL_CEILING)%nat -> pin_level w k = GPIO_Value_Low) \/
  (exists r, rising_at w r /\
     forall k, (r < k < POLL_CEILING)%nat -> pin_level w k = GPIO_Value_High) \/
  (exists i j, rising_at w i /\ falling_at w i j).
Proof.
  destruct (bounded_first (fun k => is_high (pin_level w k)) POLL_CEILING 0)
    as [AllLow | (r & Hr & Highr & Lowb)].
  - left. intros k Hk. apply is_high_false. apply AllLow. lia.
  - right. apply is_high_true in Highr.
    assert (Rise : rising_at w r).
    { repeat split; [lia | exact Highr |].
      intros k Hk. apply is_high_false. apply Lowb. lia. }
    destruct (bounded_first (fun k => negb (is_high (pin_level w k)))
                (POLL_CEILING - S r) (S r))
      as [AllHigh | (j & Hj & Lowj & Highb)].
    + left. exists r. split; [exact Rise |].
      intros k Hk. apply negb_is_high_false. apply AllHigh. lia.
    + right. exists r, j. split; [exact Rise |].
      repeat split; try lia.
      * apply negb_is_high_true. exact Lowj.
      * intros k Hk. apply negb_is_high_false. apply Highb. lia.
Qed.

End PollCalls.

Lemma reading_calls (w : SensorEnv) :
  0 <= open_output w -> 0 <= open_input w ->
  GetValue_calls (snd (GetUltrasonicReading w)) =
  GetValue_calls (snd (poll w (open_input w) POLL_CEILING 0 poll_start)).
Proof.
  intros Ho Hi. unfold GetUltrasonicReading, GetValue_calls.
  apply Z.ltb_ge in Ho, Hi. rewrite Ho, Hi.
  destruct (poll w (open_input w) POLL_CEILING 0 poll_start) as [st tr].
  cbn [snd].
  destruct ((tv_sec (tsEnd st) =? 0) && (tv_nsec (tsEnd st) =? 0)); cbn [snd];
    simpl; rewrite filter_app; simpl; rewrite app_nil_r; reflexivity.
Qed.

(** X4: one measurement polls the pin at most 10000 times.  It stops at
    the falling edge: with the edges at passes [i] and [j] it polls
    [j + 1] times; when the acquisitions succeed and no falling edge is
    seen it polls exactly 10000 times. *)
Theorem X4_polling_is_bounded (w : SensorEnv) :
  (GetValue_calls (snd (GetUltrasonicReading w)) <= POLL_CEILING)%nat /\
  (0 <= open_output w -> 0 <= open_input w ->
   (forall i j, rising_at w i -> falling_at w i j ->
      GetValue_calls (snd (GetUltrasonicReading w)) = S j) /\
   (~ falling_edge_observed w ->
      GetValue_calls (snd (GetUltrasonicReading w)) = POLL_CEILING)).
Proof.
  assert (Ok : 0 <= open_output w -> 0 <= open_input w ->
          (forall i j, rising_at w i -> falling_at w i j ->
             GetValue_calls (snd (GetUltrasonicReading w)) = S j) /\
          (~ falling_edge_observed w ->
             GetValue_calls (snd (GetUltrasonicReading w)) = POLL_CEILING)).
  { intros Ho Hi. rewrite (reading_calls w Ho Hi). split.
    - intros i j (Hi' & Highi & Lowb) (Hj & Lowj & Highb).
      rewrite (poll_calls_untriggered_rises w _ POLL_CEILING 0 i poll_start);
        [ | reflexivity | lia | intros k Hk; apply Lowb; lia | exact Highi ].
      rewrite (poll_calls_triggered_falls w _ _ (S i) j);
        [ lia | reflexivity | lia | intros k Hk; apply Highb; lia | exact Lowj ].
    - intros NoEdge.
      destruct (level_cases w) as [Low | [(r & (Hr & Highr & Lowb) & High)
                                         | (i & j & R & F)]].
      + apply poll_calls_untriggered_low; [reflexivity |].
        intros k Hk. apply Low. lia.
      + rewrite (poll_calls_untriggered_rises w _ POLL_CEILING 0 r poll_start);
          [ | reflexivity | lia | intros k Hk; apply Lowb; lia | exact Highr ].
        rewrite poll_calls_triggered_high;
          [ lia | reflexivity | intros k Hk; apply High; lia ].
      + exfalso. apply NoEdge. exact (edge_pair_observed w i j R F). }
  split; [| exact Ok].
  destruct (acquisition_fails_dec w) as [Fail | [Ho Hi]].
  - destruct (reading_unavailable w Fail) as (_ & NoPoll & _).
    unfold GetValue_calls. rewrite NoPoll. simpl. lia.
  - rewrite (reading_calls w Ho Hi). apply poll_calls_bound.
Qed.

Lemma X4_polling_is_bounded_witness :
  0 <= open_output echo_290us /\ 0 <= open_input echo_290us /\
  rising_at echo_290us 2 /\ falling_at echo_290us 2 9 /\
  GetValue_calls (snd (GetUltrasonicReading echo_290us)) = 10%nat /\
  ~ falling_edge_observed no_echo /\
  GetValue_calls (snd (GetUltrasonicReading no_echo)) = POLL_CEILING.
Proof.
  assert (Ho : 0 <= open_output echo_290us) by (simpl; lia).
  assert (Hi : 0 <= open_input echo_290us) by (simpl; lia).
  assert (Ho' : 0 <= open_output no_echo) by (simpl; lia).
  assert (Hi' : 0 <= open_input no_echo) by (simpl; lia).
  destruct echo_290us_edges as [R F].
  destruct (X4_polling_is_bounded echo_290us) as (_ & Ok).
  destruct (X4_polling_is_bounded no_echo) as (_ & Ok').
  destruct (Ok Ho Hi) as (Edge & _).
  destruct (Ok' Ho' Hi') as (_ & NoEdge).
  split; [exact Ho |]. split; [exact Hi |]. split; [exact R |]. split; [exact F |].
  split; [exact (Edge 2%nat 9%nat R F) |].
  split; [exact no_echo_no_falling_edge | exact (NoEdge no_echo_no_falling_edge)].
Defined.

Lemma poll_no_close (w : SensorEnv) (fd : Z) (n i : nat) (st : PollState) :
  filter is_close (snd (poll w fd n i st)) = [] /\
  (List.length (filter is_clock_gettime (snd (poll w fd n i st)))
   <= if triggered st then 1 else 2)%nat.
Proof.
  revert i st. induction n as [| n IH]; intros i st; simpl.
  - split; [reflexivity |]. destruct (triggered st); simpl; lia.
  - destruct (pin_level w i), (triggered st) eqn:T.
    + split; [reflexivity | simpl; lia].
    + specialize (IH (S i) st). rewrite T in IH.
      destruct (poll w fd n (S i) st) as [st' tr]; simpl in *. exact IH.
    + specialize (IH (S i) st). rewrite T in IH.
      destruct (poll w fd n (S i) st) as [st' tr]; simpl in *. exact IH.
    + specialize (IH (S i) {| tsStart := monotonic_clock w i; tsEnd := tsEnd st;
                              triggered := true |}).
      destruct (poll w fd n (S i) _) as [st' tr]; simpl in *.
      split; [apply IH | lia].
Qed.

(** X5: one measurement closes every descriptor it obtained, once, and
    nothing else: none when the output cannot be opened, the output
    descriptor alone when the input cannot be opened, both otherwise.  It
    reads the clock at most twice. *)
Theorem X5_descriptors_released (w : SensorEnv) :
  filter is_close (snd (GetUltrasonicReading w)) =
    (if open_output w <? 0 then []
     else close (open_output w)
          :: (if open_input w <? 0 then [] else [close (open_input w)])) /\
  (List.length (filter is_clock_gettime (snd (GetUltrasonicReading w))) <= 2)%nat.
Proof.
  unfold GetUltrasonicReading.
  destruct (open_output w <? 0); [split; [reflexivity | simpl; lia] |].
  destruct (open_input w <? 0); [split; [reflexivity | simpl; lia] |].
  destruct (poll_no_close w (open_input w) POLL_CEILING 0 poll_start) as [C T].
  destruct (poll w (open_input w) POLL_CEILING 0 poll_start) as [st tr].
  cbn [snd] in C, T. simpl in T.
  destruct ((tv_sec (tsEnd st) =? 0) && (tv_nsec (tsEnd st) =? 0)); cbn [snd];
    simpl; rewrite !filter_app, C; simpl; rewrite length_app; simpl;
    (split; [reflexivity | lia]).
Qed.

(** ** The handler on a measured pulse *)

Lemma spec_tier_of_width (ns : Z) :
  spec_tier (ns # 58000) =
  if 464000 <? ns then clear else if 116000 <? ns then near else occupied.
Proof.
  unfold spec_tier, Qle_bool. simpl.
  destruct (ns * 1 <=? 116000) eqn:E2.
  - apply Z.leb_le in E2.
    replace (464000 <? ns) with false by (symmetry; apply Z.ltb_ge; lia).
    replace (116000 <? ns) with false by (symmetry; apply Z.ltb_ge; lia).
    reflexivity.
  - apply Z.leb_gt in E2.
    replace (116000 <? ns) with true by (symmetry; apply Z.ltb_lt; lia).
    destruct (ns * 1 <=? 464000) eqn:E8.
    + apply Z.leb_le in E8.
      replace (464000 <? ns) with false by (symmetry; apply Z.ltb_ge; lia).
      reflexivity.
    + apply Z.leb_gt in E8.
      replace (464000 <? ns) with true by (symmetry; apply Z.ltb_lt; lia).
      reflexivity.
Qed.

(** X6: the thresholds in terms of the echo.  When the timer event is
    drained, both edges are seen and the clock does not read zero at the
    falling edge, the handler lights the traffic indicator Green when the
    sub-second pulse width exceeds 464000 ns, Yellow when it exceeds
    116000 ns and not 464000 ns, Red otherwise, and it stores occupancy
    false exactly in the first case. *)
Theorem X6_pulse_width_thresholds (t : TimerTick) (g : Globals) (i j : nat) :
  consume_rc t = 0 ->
  0 <= open_output (sensor t) -> 0 <= open_input (sensor t) ->
  rising_at (sensor t) i -> falling_at (sensor t) i j ->
  monotonic_clock (sensor t) j <> zero_timespec ->
  let ns := tv_nsec (TimerSubtract (monotonic_clock (sensor t) j)
                       (monotonic_clock (sensor t) i)) in
  colors_set ledTraffic (snd (UltrasonicTimerEventHandler t g)) =
    [if 464000 <? ns then LedBlinkUtility_Colors_Green
     else if 116000 <? ns then LedBlinkUtility_Colors_Yellow
     else LedBlinkUtility_Colors_Red] /\
  occupiedState (fst (UltrasonicTimerEventHandler t g)) = negb (464000 <? ns).
Proof.
  intros Hc Ho Hi R F NZ. cbv zeta.
  destruct (handler_effect t g Hc) as (O & _ & C & _).
  rewrite (reading_edge_pair (sensor t) i j Ho Hi R F), (zero_test_false _ NZ)
    in O, C.
  unfold occupancy_of in O. rewrite spec_tier_of_width in O, C.
  rewrite O, C.
  destruct (464000 <? _); [split; reflexivity |].
  destruct (116000 <? _); split; reflexivity.
Qed.

Lemma X6_pulse_width_thresholds_witness :
  let t := {| consume_rc := 0; sensor := echo_290us; traffic_led_rc := 0 |} in
  consume_rc t = 0 /\
  0 <= open_output (sensor t) /\ 0 <= open_input (sensor t) /\
  rising_at (sensor t) 2 /\ falling_at (sensor t) 2 9 /\
  monotonic_clock (sensor t) 9 <> zero_timespec /\
  colors_set ledTraffic (snd (UltrasonicTimerEventHandler t process_start)) =
    [LedBlinkUtility_Colors_Yellow] /\
  occupiedState (fst (UltrasonicTimerEventHandler t process_start)) = true.
Proof.
  cbv zeta.
  set (t := {| consume_rc := 0; sensor := echo_290us; traffic_led_rc := 0 |}).
  assert (Hc : consume_rc t = 0) by reflexivity.
  assert (Ho : 0 <= open_output (sensor t)) by (simpl; lia).
  assert (Hi : 0 <= open_input (sensor t)) by (simpl; lia).
  destruct echo_290us_edges as [R F].
  assert (NZ : monotonic_clock (sensor t) 9 <> zero_timespec)
    by (simpl; discriminate).
  destruct (X6_pulse_width_thresholds t process_start 2 9 Hc Ho Hi R F NZ)
    as (C & O).
  split; [exact Hc |]. split; [exact Ho |]. split; [exact Hi |].
  split; [exact R |]. split; [exact F |]. split; [exact NZ |].
  split; [exact C | exact O].
Defined.

(** ** [ReportStatusToIotHub] *)

(** X7: a value that was just handed to [ReportStatusToIotHub] is never
    reported by the next call: the second call with the same value emits
    nothing and changes nothing, also when the first report was dropped
    for lack of a connection and the client has connected since.  So a
    sample whose occupancy equals that of the sample before it emits no
    report, whatever the connection status. *)
Theorem X7_repeated_value_is_silent :
  (forall (occ connected : bool) (g : Globals),
     let g1 := IoTHubConnectionStatusChanged connected
                 (fst (ReportStatusToIotHub occ g)) in
     ReportStatusToIotHub occ g1 = (g1, [])) /\
  (forall (d1 d2 : Q) (rc1 rc2 : Z) (connected : bool) (g : Globals),
     occupancy_of d1 = occupancy_of d2 ->
     twin_reports
       (snd (classify_and_report d2 rc2
               (IoTHubConnectionStatusChanged connected
                  (fst (classify_and_report d1 rc1 g))))) = []).
Proof.
  split.
  - intros occ connected g. cbv zeta.
    destruct (ReportStatusToIotHub_effect occ g) as (S & _). rewrite S.
    unfold ReportStatusToIotHub, IoTHubConnectionStatusChanged. simpl.
    rewrite Bool.eqb_reflx. reflexivity.
  - intros d1 d2 rc1 rc2 connected g E.
    destruct (classify_and_report_effect d1 rc1 g) as (S1 & _).
    destruct (classify_and_report_effect d2 rc2
                (IoTHubConnectionStatusChanged connected
                   (fst (classify_and_report d1 rc1 g)))) as (_ & T2).
    rewrite T2, S1. simpl. rewrite E, Bool.eqb_reflx. reflexivity.
Qed.

Lemma X7_repeated_value_is_silent_witness :
  occupancy_of 5 = occupancy_of 1 /\
  twin_reports (snd (classify_and_report 5 0 process_start)) = [] /\
  twin_reports
    (snd (classify_and_report 1 0
            (IoTHubConnectionStatusChanged true
               (fst (classify_and_report 5 0 process_start))))) = [].
Proof.
  assert (E : occupancy_of 5 = occupancy_of 1) by reflexivity.
  split; [exact E |]. split; [reflexivity |].
  exact (proj2 X7_repeated_value_is_silent 5%Q 1%Q 0 0 true process_start E).
Defined.

Lemma last_cons (A : Type) (a d : A) (l : list A) : last (a :: l) d = last l a.
Proof.
  revert a d. induction l as [| b l IH]; intros a d; [reflexivity |].
  change (last (a :: b :: l) d) with (last (b :: l) d).
  rewrite (IH b d), (IH b a). reflexivity.
Qed.

Lemma changes_alternate (l : list bool) (prev : bool) :
  alternating prev (changes prev l).
Proof.
  revert prev. induction l as [| b l IH]; intros prev; simpl; [exact I |].
  destruct (Bool.eqb prev b) eqn:E.
  - apply Bool.eqb_prop in E. subst b. apply IH.
  - simpl. split; [| apply IH].
    destruct prev, b; simpl in *; congruence.
Qed.

Lemma feed_samples_changes (samples : list Q) (g : Globals) :
  connectedToIoTHub g = true ->
  twin_reports (snd (feed_samples samples g)) =
    map expected_report (changes (occupiedState g) (map occupancy_of samples)) /\
  occupiedState (fst (feed_samples samples g)) =
    last (map occupancy_of samples) (occupiedState g).
Proof.
  revert g. induction samples as [| d samples IH]; intros g Hc;
    [split; reflexivity |].
  simpl feed_samples.
  destruct (classify_and_report_effect d 0 g) as (S & T).
  destruct (classify_and_report d 0 g) as [g1 tr1]; cbn [fst snd] in S, T.
  assert (Hc1 : connectedToIoTHub g1 = true) by (rewrite S; exact Hc).
  destruct (IH g1 Hc1) as (IHt & IHo).
  destruct (feed_samples samples g1) as [g2 tr2]; cbn [fst snd] in *.
  rewrite twin_reports_app, IHt, T, IHo, S, Hc, andb_true_r.
  cbn [map changes set_occupiedState occupiedState].
  rewrite last_cons.
  split; [| reflexivity].
  destruct (Bool.eqb (occupiedState g) (occupancy_of d)); reflexivity.
Qed.

(** X8: while the client stays connected, the reports emitted for a
    sequence of samples are exactly the occupancy values at which the
    sequence changes, in order, the stored value counting as the value
    before the first sample; so the reported values alternate, beginning
    with the negation of the stored value; the value stored at the end is
    the occupancy of the last sample. *)
Theorem X8_reports_are_the_changes (samples : list Q) (g : Globals) :
  connectedToIoTHub g = true ->
  twin_reports (snd (feed_samples samples g)) =
    map expected_report (changes (occupiedState g) (map occupancy_of samples)) /\
  alternating (occupiedState g)
    (changes (occupiedState g) (map occupancy_of samples)) /\
  occupiedState (fst (feed_samples samples g)) =
    last (map occupancy_of samples) (occupiedState g).
Proof.
  intros Hc. destruct (feed_samples_changes samples g Hc) as (T & O).
  split; [exact T |]. split; [apply changes_alternate | exact O].
Qed.

Lemma X8_reports_are_the_changes_witness :
  connectedToIoTHub connected_start = true /\
  changes (occupiedState connected_start) (map occupancy_of scripted_samples)
  = [true; false] /\
  twin_reports (snd (feed_samples scripted_samples connected_start)) =
    map expected_report [true; false] /\
  occupiedState (fst (feed_samples scripted_samples connected_start)) = false.
Proof.
  assert (C : connectedToIoTHub connected_start = true) by reflexivity.
  destruct (X8_reports_are_the_changes scripted_samples connected_start C)
    as (T & _ & O).
  split; [exact C |]. split; [reflexivity |]. split; [exact T | exact O].
Defined.

(** ** The main loop, beyond the retry gate *)

(** What the handler does to the globals: it stores the occupancy, and it
    raises [terminationRequired] exactly when the timer cannot be
    drained. *)
Lemma handler_globals (t : TimerTick) (g : Globals) :
  let g' := fst (UltrasonicTimerEventHandler t g) in
  connectedToIoTHub g' = connectedToIoTHub g /\
  epollFd g' = epollFd g /\ usTimerFd g' = usTimerFd g /\
  terminationRequired g' = terminationRequired g || negb (consume_rc t =? 0).
Proof.
  cbv zeta. unfold UltrasonicTimerEventHandler.
  destruct (negb (consume_rc t =? 0)).
  - simpl. rewrite orb_true_r. repeat split.
  - destruct (GetUltrasonicReading (sensor t)) as [cms measured].
    destruct (classify_and_report_effect cms (traffic_led_rc t) g) as (S & _).
    destruct (classify_and_report cms (traffic_led_rc t) g) as [g' tr].
    cbn [fst] in *. rewrite S. simpl. rewrite orb_false_r. repeat split.
Qed.

(** The timer tick a pass dispatches, if any. *)
Lemma wait_globals (e : IterEnv) (g : Globals) :
  let r := WaitForEventAndCallHandler e g in
  fst (fst r) = (if wait_rc e =? 0 then 0 else wait_rc e) /\
  connectedToIoTHub (snd (fst r)) = connectedToIoTHub g /\
  epollFd (snd (fst r)) = epollFd g /\ usTimerFd (snd (fst r)) = usTimerFd g /\
  terminationRequired (snd (fst r)) =
    terminationRequired g ||
    ((wait_rc e =? 0) &&
     match timer_ready e with
     | Some t => negb (consume_rc t =? 0)
     | None => false
     end).
Proof.
  cbv zeta. unfold WaitForEventAndCallHandler.
  destruct (wait_rc e =? 0); cbn [negb andb].
  - destruct (timer_ready e) as [t |].
    + destruct (handler_globals t g) as (C & E & U & T). cbv zeta in C, E, U, T.
      destruct (UltrasonicTimerEventHandler t g) as [g' tr]. cbn [fst snd] in *.
      auto.
    + cbn [fst snd]. rewrite orb_false_r. auto.
  - cbn [fst snd]. rewrite orb_false_r. auto.
Qed.

(** The termination flag after a pass: it was raised by the signal, by a
    failed wait, or by a timer that could not be drained. *)
Lemma pass_termination_flag (e : IterEnv) (s : MainState) :
  terminationRequired (globals s) = false ->
  terminationRequired (globals (fst (fst (loop_body e s)))) =
    sigterm e || negb (wait_rc e =? 0) ||
    match timer_ready e with
    | Some t => negb (consume_rc t =? 0)
    | None => false
    end.
Proof.
  intros T0. unfold loop_body.
  pose proof (wait_globals e
                (if sigterm e then TerminationHandler (globals s) else globals s))
    as (Rc & _ & _ & _ & T).
  cbv zeta in Rc, T.
  destruct (WaitForEventAndCallHandler e _) as [[rc g1] tr_wait].
  cbn [fst snd] in Rc, T.
  assert (Tg2 : terminationRequired
                  (if negb (rc =? 0) then set_terminationRequired true g1 else g1)
                = terminationRequired g1 || negb (wait_rc e =? 0)).
  { rewrite Rc. destruct (wait_rc e =? 0) eqn:W.
    - simpl. rewrite orb_false_r. reflexivity.
    - rewrite W. simpl.
      rewrite orb_true_r. reflexivity. }
  assert (Tg0 : terminationRequired
                  (if sigterm e then TerminationHandler (globals s) else globals s)
                = sigterm e).
  { destruct (sigterm e); [reflexivity | exact T0]. }
  rewrite Tg0 in T.
  set (g2 := if negb (rc =? 0) then set_terminationRequired true g1 else g1) in *.
  assert (Final : terminationRequired g2 =
                  sigterm e || negb (wait_rc e =? 0) ||
                  match timer_ready e with
                  | Some t => negb (consume_rc t =? 0)
                  | None => false
                  end).
  { rewrite Tg2, T.
    destruct (sigterm e), (wait_rc e =? 0), (timer_ready e) as [t |];
      simpl; try reflexivity;
      destruct (negb (consume_rc t =? 0)); reflexivity. }
  destruct (negb (net_led_rc e =? 0)); cbn [fst globals]; [exact Final |].
  destruct (TimerCompareGreater (now_gate e) (next_iothub_connect s) ||
            (if TimerCompareGreater (now_gate e) (next_iothub_connect s)
             then setup_ok e else iothub_connected s));
    [| exact Final].
  destruct (status_notified e); exact Final.
Qed.

(** A pass that leaves [terminationRequired] raised is the last one. *)
Lemma raised_flag_is_last (script : list IterEnv) (s : MainState)
  (pre post : list IterLog) (l : IterLog) :
  fst (fst (main_loop script s)) = pre ++ l :: post ->
  terminationRequired (globals (after l)) = true ->
  post = [] /\ snd (main_loop script s) = true.
Proof.
  revert s pre. induction script as [| e rest IH]; intros s pre E B.
  - simpl in E. destruct (terminationRequired (globals s));
      destruct pre; discriminate.
  - destruct (terminationRequired (globals s)) eqn:T.
    + rewrite main_loop_stop in E by exact T. destruct pre; discriminate.
    + rewrite main_loop_step in E |- * by exact T.
      destruct (snd (loop_body e s)) eqn:Brk; cbn [fst snd] in E |- *.
      * destruct pre as [| x pre].
        -- injection E as _ E. auto.
        -- injection E as _ E. destruct pre; discriminate.
      * destruct pre as [| x pre].
        -- injection E as E1 E. subst l. cbn [log_of after] in B.
           rewrite (main_loop_stop rest _ B) in E |- *. cbn [fst snd] in *.
           auto.
        -- injection E as _ E. exact (IH _ _ E B).
Qed.




(** X10: a pass leaves [terminationRequired] raised exactly when SIGTERM
    arrives during it, its wait fails, or the handler its wait runs
    cannot drain the timer.  Such a pass is the last one: the loop is
    left and the shut-down calls are made. *)
Theorem X10_termination_causes (p : ProcessEnv) (l : IterLog) :
  In l (passes (main p)) ->
  terminationRequired (globals (after l)) = raises_termination (met l) /\
  (raises_termination (met l) = true ->
   (exists pre, passes (main p) = pre ++ [l]) /\
   loop_left (main p) = true /\
   shutdown_calls (main p) =
     ClosePeripheralsAndHandlers (close_led_rc p) (globals (final (main p)))
     ++ [Log_Debug "Application exiting\n"]).
Proof.
  intros Hpass.
  destruct (main_unfold p) as (P & L & _ & _ & S).
  rewrite P in Hpass.
  destruct (passes_sound _ _ _ Hpass) as (T0 & E & _).
  assert (Flag : terminationRequired (globals (after l)) =
                 raises_termination (met l)).
  { rewrite E at 1. cbn [log_of after].
    exact (pass_termination_flag (met l) (before l) T0). }
  split; [exact Flag |].
  intros Raised. rewrite <- Flag in Raised.
  destruct (in_split _ _ Hpass) as (pre & post & Split).
  destruct (raised_flag_is_last _ _ _ _ _ Split Raised) as (Last & Left).
  subst post.
  assert (LL : loop_left (main p) = true) by (rewrite L; exact Left).
  split; [exists pre; rewrite P; exact Split |].
  split; [exact LL | rewrite S, LL; reflexivity].
Qed.

Lemma X10_termination_causes_witness :
  let p := {| startup := startup_ok; now_start := at_ms 10000;
              script := [idle_pass 10500 true None;
                         {| sigterm := true; wait_rc := 0; timer_ready := None;
                            net_led_rc := 0; now_gate := at_ms 11000;
                            setup_ok := true; now_after := at_ms 11020;
                            status_notified := None |};
                         idle_pass 11700 true None];
              close_led_rc := 0 |} in
  let l1 := log_of (idle_pass 10500 true None) (initial_state p) in
  let l2 := log_of (nth 1 (script p) (idle_pass 0 true None)) (after l1) in
  In l2 (passes (main p)) /\
  raises_termination (met l2) = true /\
  passes (main p) = [l1; l2] /\ loop_left (main p) = true /\
  broke l2 = false.
Proof.
  cbv zeta.
  set (p := {| startup := startup_ok; now_start := at_ms 10000;
               script := [idle_pass 10500 true None;
                          {| sigterm := true; wait_rc := 0; timer_ready := None;
                             net_led_rc := 0; now_gate := at_ms 11000;
                             setup_ok := true; now_after := at_ms 11020;
                             status_notified := None |};
                          idle_pass 11700 true None];
               close_led_rc := 0 |}).
  set (l1 := log_of (idle_pass 10500 true None) (initial_state p)).
  set (l2 := log_of (nth 1 (script p) (idle_pass 0 true None)) (after l1)).
  assert (E : passes (main p) = [l1; l2]) by (vm_compute; reflexivity).
  assert (Hin : In l2 (passes (main p))) by (rewrite E; right; left; reflexivity).
  assert (R : raises_termination (met l2) = true) by reflexivity.
  destruct (X10_termination_causes p l2 Hin) as (_ & Last).
  destruct (Last R) as (_ & Left & _).
  split; [exact Hin |]. split; [exact R |].
  split; [exact E |]. split; [exact Left |].
  vm_compute; reflexivity.
Defined.

(** ** Start-up *)

(** X11: [InitPeripheralsAndHandlers] returns 0 or -1, and -1 exactly
    when the epoll descriptor is negative or the Azure IoT SDK cannot be
    initialized.  Then the timer is never created, [main] runs no pass
    of the loop, and the shut-down calls are made with [usTimerFd] still
    at its initial -1. *)
Theorem X11_startup_failure (p : ProcessEnv) :
  (init_rc (main p) = 0 \/ init_rc (main p) = -1) /\
  (init_rc (main p) = -1 <->
   epoll_fd (startup p) < 0 \/ azure_init_ok (startup p) = false) /\
  (init_rc (main p) = -1 ->
   passes (main p) = [] /\ loop_left (main p) = true /\
   (forall fd, ~ In (CreateTimerFdAndAddToEpoll fd) (init_calls (main p))) /\
   shutdown_calls (main p) =
     [LedBlinkUtility_SetLed ledTraffic LedBlinkUtility_Colors_Off (close_led_rc p);
      LedBlinkUtility_CloseLeds;
      Log_Debug "Closing file descriptors\n";
      CloseFdAndPrintError (-1) "USTimer";
      CloseFdAndPrintError (epoll_fd (startup p)) "Epoll";
      Log_Debug "Application exiting\n"]).
Proof.
  unfold main, InitPeripheralsAndHandlers. cbn [set_epollFd epollFd].
  destruct (epoll_fd (startup p) <? 0) eqn:E.
  - apply Z.ltb_lt in E. cbn [negb Z.eqb].
    rewrite main_loop_stop by reflexivity. cbn.
    split; [right; reflexivity |].
    split; [split; [intros _; left; exact E | reflexivity] |].
    intros _. repeat split.
    intros fd [H | [H | [H | [H | [H | []]]]]]; discriminate.
  - apply Z.ltb_ge in E.
    destruct (azure_init_ok (startup p)) eqn:A; cbn [negb Z.eqb].
    + destruct (main_loop (script p) _) as [[logs s] exited]. cbn.
      split; [left; reflexivity |].
      split; [split; [discriminate | intros [H | H]; [lia | discriminate]] |].
      discriminate.
    + rewrite main_loop_stop by reflexivity. cbn.
      split; [right; reflexivity |].
      split; [split; [intros _; right; reflexivity | reflexivity] |].
      intros _. repeat split.
      intros fd [H | [H | [H | [H | [H | [H | [H | []]]]]]]]; discriminate.
Qed.

Lemma X11_startup_failure_witness :
  let p := {| startup := {| epoll_fd := 3; azure_init_ok := false; timer_fd := 4 |};
              now_start := at_ms 10000;
              script := [idle_pass 10500 true None];
              close_led_rc := 0 |} in
  init_rc (main p) = -1 /\ passes (main p) = [] /\ loop_left (main p) = true /\
  init_rc (main run_no_timer) = 0.
Proof.
  cbv zeta.
  set (p := {| startup := {| epoll_fd := 3; azure_init_ok := false; timer_fd := 4 |};
               now_start := at_ms 10000;
               script := [idle_pass 10500 true None];
               close_led_rc := 0 |}).
  destruct (X11_startup_failure p) as (_ & Iff & Abort).
  assert (R : init_rc (main p) = -1) by (apply Iff; right; reflexivity).
  destruct (Abort R) as (P & L & _).
  split; [exact R |]. split; [exact P |]. split; [exact L |].
  destruct (X11_startup_failure run_no_timer) as ([Z0 | M1] & Iff' & _);
    [exact Z0 |].
  apply Iff' in M1. simpl in M1. destruct M1; [lia | discriminate].
Defined.

(** ** The whole run *)

Lemma sensor_call_running (e : event) : is_sensor_call e = true -> running_call e.
Proof. destruct e; simpl; intros H; try exact I; discriminate. Qed.

Lemma poll_sensor_calls (w : SensorEnv) (fd : Z) (n i : nat) (st : PollState) :
  Forall (fun e => is_sensor_call e = true) (snd (poll w fd n i st)).
Proof.
  revert i st. induction n as [| n IH]; intros i st; simpl; [constructor |].
  destruct (pin_level w i), (triggered st).
  - repeat constructor.
  - specialize (IH (S i) st).
    destruct (poll w fd n (S i) st) as [st' tr]; simpl in *.
    constructor; [reflexivity | exact IH].
  - specialize (IH (S i) st).
    destruct (poll w fd n (S i) st) as [st' tr]; simpl in *.
    constructor; [reflexivity | exact IH].
  - specialize (IH (S i) {| tsStart := monotonic_clock w i; tsEnd := tsEnd st;
                            triggered := true |}).
    destruct (poll w fd n (S i) _) as [st' tr]; simpl in *.
    repeat (constructor; [reflexivity |]). exact IH.
Qed.

(** A measurement makes GPIO, clock, sleep and log calls only. *)
Lemma reading_sensor_calls (w : SensorEnv) :
  Forall (fun e => is_sensor_call e = true) (snd (GetUltrasonicReading w)).
Proof.
  unfold GetUltrasonicReading.
  destruct (open_output w <? 0); [repeat constructor |].
  destruct (open_input w <? 0); [repeat constructor |].
  pose proof (poll_sensor_calls w (open_input w) POLL_CEILING 0 poll_start) as P.
  destruct (poll w (open_input w) POLL_CEILING 0 poll_start) as [st tr].
  cbn [snd] in P.
  assert (Forall (fun e => is_sensor_call e = true)
            ([GPIO_OpenAsOutput (open_output w); nanosleep 10000;
              GPIO_SetValue (open_output w) GPIO_Value_Low; close (open_output w)]
             ++ GPIO_OpenAsInput (open_input w) :: tr ++ [close (open_input w)])).
  { apply Forall_app. split; [repeat constructor |].
    constructor; [reflexivity |].
    apply Forall_app. split; [exact P | repeat constructor]. }
  destruct ((tv_sec (tsEnd st) =? 0) && (tv_nsec (tsEnd st) =? 0)); assumption.
Qed.

Lemma classify_running_calls (cms : Q) (rc : Z) (g : Globals) :
  Forall running_call (snd (classify_and_report cms rc g)).
Proof.
  rewrite classify_and_report_tier.
  unfold report_and_light, ReportStatusToIotHub.
  assert (Led : running_call
                  (LedBlinkUtility_SetLed ledTraffic (spec_color (spec_tier cms)) rc))
    by (destruct (spec_tier cms); exact I).
  destruct (negb (Bool.eqb (occupiedState g) (occupancy_of cms)));
    [destruct (connectedToIoTHub (set_occupiedState (occupancy_of cms) g)) |];
    cbn [snd app].
  - constructor; [exists (occupancy_of cms); reflexivity |].
    constructor; [exact Led |]. repeat constructor.
  - constructor; [exact I |].
    constructor; [exact Led |]. repeat constructor.
  - constructor; [exact Led |]. repeat constructor.
Qed.

Lemma handler_running_calls (t : TimerTick) (g : Globals) :
  Forall running_call (snd (UltrasonicTimerEventHandler t g)).
Proof.
  unfold UltrasonicTimerEventHandler.
  destruct (negb (consume_rc t =? 0)); [repeat constructor |].
  pose proof (reading_sensor_calls (sensor t)) as R.
  destruct (GetUltrasonicReading (sensor t)) as [cms measured].
  pose proof (classify_running_calls cms (traffic_led_rc t) g) as C.
  destruct (classify_and_report cms (traffic_led_rc t) g) as [g' tr].
  cbn [snd] in *.
  constructor; [exact I |].
  apply Forall_app. split; [| exact C].
  apply (Forall_impl _ sensor_call_running). exact R.
Qed.

Lemma pass_running_calls (e : IterEnv) (s : MainState) :
  Forall running_call (snd (fst (loop_body e s))).
Proof.
  unfold loop_body.
  assert (W : forall g, Forall running_call (snd (WaitForEventAndCallHandler e g))).
  { intros g. unfold WaitForEventAndCallHandler.
    destruct (negb (wait_rc e =? 0)); [repeat constructor |].
    destruct (timer_ready e) as [t |]; [| repeat constructor].
    pose proof (handler_running_calls t g) as H.
    destruct (UltrasonicTimerEventHandler t g) as [g' tr]; cbn [snd] in *.
    constructor; [exact I | exact H]. }
  specialize (W (if sigterm e then TerminationHandler (globals s) else globals s)).
  destruct (WaitForEventAndCallHandler e _) as [[rc g1] tr_wait]; cbn [snd] in W.
  destruct (negb (net_led_rc e =? 0)); cbn [fst snd];
    (apply Forall_app; split; [exact W |]).
  - repeat constructor.
  - destruct (TimerCompareGreater (now_gate e) (next_iothub_connect s));
      [destruct (setup_ok e) | destruct (iothub_connected s)];
      repeat constructor.
Qed.

Lemma running_calls_facts (tr : list event) :
  Forall running_call tr ->
  colors_set ledMessageEventSentReceived tr = [] /\
  Forall (fun c => c <> LedBlinkUtility_Colors_Off) (colors_set ledTraffic tr) /\
  Forall (fun r => exists occ, r = expected_report occ) (twin_reports tr).
Proof.
  induction 1 as [| e tr He _ (IH1 & IH2 & IH3)];
    [repeat split; constructor |].
  destruct e; simpl in *; try (repeat split; assumption).
  - split; [exact IH1 |]. split; [exact IH2 |].
    constructor; [exact He | exact IH3].
  - destruct led; try contradiction.
    + destruct color; try contradiction;
        (split; [exact IH1 |]; split; [| exact IH3];
         constructor; [discriminate | exact IH2]).
    + repeat split; assumption.
Qed.

Lemma main_init_calls (p : ProcessEnv) :
  init_calls (main p) =
  Log_Debug "Parking application starting\n"
  :: snd (InitPeripheralsAndHandlers (startup p) process_start)
  ++ [clock_gettime (now_start p)].
Proof.
  unfold main.
  destruct (InitPeripheralsAndHandlers (startup p) process_start) as [[rc g] tr].
  destruct (main_loop (script p) _) as [[logs s] exited].
  reflexivity.
Qed.

(** X12: over a whole run of [main], before the shut-down calls neither
    [LedBlinkUtility_CloseLeds] nor [CloseFdAndPrintError] is called (the
    indicators, the timer and the epoll descriptor stay open; the GPIO
    descriptors of a measurement are opened and closed within it, by
    [close]) and the traffic indicator is never turned off; the activity
    indicator is never set at all; every twin report is
    ParkingBayOccupied with value 0 or 1; and when the loop is left the
    last colour the traffic indicator is given is Off.  While the loop
    has not been left no shut-down call is made. *)
Theorem X12_whole_run (p : ProcessEnv) :
  Forall running_call
    (init_calls (main p) ++ List.concat (map calls (passes (main p)))) /\
  colors_set ledMessageEventSentReceived (all_calls (main p)) = [] /\
  Forall (fun r => exists occ, r = expected_report occ)
    (twin_reports (all_calls (main p))) /\
  (loop_left (main p) = true ->
   exists cs, colors_set ledTraffic (all_calls (main p))
              = cs ++ [LedBlinkUtility_Colors_Off] /\
              Forall (fun c => c <> LedBlinkUtility_Colors_Off) cs) /\
  (loop_left (main p) = false -> shutdown_calls (main p) = []).
Proof.
  destruct (main_unfold p) as (P & _ & _ & _ & S).
  assert (Init : Forall running_call (init_calls (main p))).
  { rewrite main_init_calls. unfold InitPeripheralsAndHandlers.
    cbn [set_epollFd epollFd].
    destruct (epoll_fd (startup p) <? 0); [repeat constructor |].
    destruct (azure_init_ok (startup p)); repeat constructor. }
  assert (Passes : Forall running_call (List.concat (map calls (passes (main p))))).
  { apply Forall_concat. apply Forall_map. apply Forall_forall.
    intros l Hin. rewrite P in Hin.
    destruct (passes_sound _ _ _ Hin) as (_ & E & _).
    rewrite E. cbn [log_of calls]. apply pass_running_calls. }
  assert (Running : Forall running_call
            (init_calls (main p) ++ List.concat (map calls (passes (main p)))))
    by (apply Forall_app; split; assumption).
  destruct (running_calls_facts _ Running) as (A & T & R).
  unfold all_calls. rewrite app_assoc.
  set (running := init_calls (main p) ++ List.concat (map calls (passes (main p))))
    in *.
  rewrite !colors_set_app, twin_reports_app, A, S.
  split; [exact Running |].
  destruct (loop_left (main p)).
  - split; [reflexivity |].
    split; [cbn; rewrite app_nil_r; exact R |].
    split; [| discriminate].
    intros _. eexists. split; [reflexivity | exact T].
  - split; [reflexivity |].
    split; [cbn; rewrite app_nil_r; exact R |].
    split; [discriminate | reflexivity].
Qed.

Lemma X12_whole_run_witness :
  loop_left (main run_network_led_failure) = true /\
  loop_left (main run_traffic_led_failure) = false /\
  colors_set ledTraffic (all_calls (main run_network_led_failure))
  = [LedBlinkUtility_Colors_Off] /\
  colors_set ledTraffic (all_calls (main run_traffic_led_failure))
  = [LedBlinkUtility_Colors_Yellow] /\
  shutdown_calls (main run_traffic_led_failure) = [].
Proof.
  assert (L1 : loop_left (main run_network_led_failure) = true)
    by (vm_compute; reflexivity).
  assert (L2 : loop_left (main run_traffic_led_failure) = false)
    by (vm_compute; reflexivity).
  destruct (X12_whole_run run_traffic_led_failure) as (_ & _ & _ & _ & NoShut).
  split; [exact L1 |]. split; [exact L2 |].
  split; [vm_compute; reflexivity |].
  split; [vm_compute; reflexivity | exact (NoShut L2)].
Defined.

(** ** Maintenance while connected *)








